(** * asyncpraw: the Submission model (models/reddit/submission.py) and the
      moderation mixin (models/reddit/mixins/__init__.py)

    A shallow embedding of the Python code.  Python exceptions are the
    [Raise] results of an error monad, attribute dictionaries are finite maps
    from attribute names to values, and the transport (Reddit.request and
    Reddit.post) is an oracle that is threaded through a state monad together
    with the log of the requests issued and of the warnings emitted.

    Strings are Rocq's strings of bytes.  Which characters Python counts as
    alphanumeric is a matter of the Unicode character database, which is not
    part of the sources: the classification is a parameter of the model, and
    the examples, which are ASCII text, run with the classification of ASCII
    letters and digits. *)

From Stdlib Require Import Ascii String.
From stdpp Require Import base numbers list strings gmap fin_maps.

Local Open Scope string_scope.
Local Open Scope list_scope.
Local Open Scope Z_scope.

(** ** Exceptions and results *)

(** The exceptions the two source files raise or let escape.  The prose of
    the specification calls [TypeError] (constructor arguments) the identity
    error, [InvalidURL] the invalid URL error and [NotImplementedError] the
    unsupported operation error.  [Conflict] is asyncprawcore's 409 error;
    [TransportError] stands for every other error of the transport, tagged
    with its name. *)
Inductive exn : Type :=
  | InvalidURL (url : string) (message : option string)
  | TypeError (message : string)
  | ValueError (message : string)
  | NotImplementedError (message : string)
  | IndexError
  | KeyError (key : string)
  | AttributeError (attribute : string)
  | Conflict
  | TransportError (name : string).

#[global] Instance exn_eq_dec : EqDecision exn.
Proof. solve_decision. Defined.

Inductive outcome (A : Type) : Type :=
  | Return (a : A)
  | Raise (e : exn).
Arguments Return {A} a.
Arguments Raise {A} e.

Definition bind {A B} (m : outcome A) (f : A -> outcome B) : outcome B :=
  match m with
  | Return a => f a
  | Raise e => Raise e
  end.

Definition omap {A B} (f : A -> B) (m : outcome A) : outcome B :=
  bind m (fun a => Return (f a)).

Notation "'let*' x ':=' m 'in' k" := (bind m (fun x => k))
  (at level 10, x name, m at level 100, k at level 200).

(** [raises_InvalidURL r]: the call ended in an [InvalidURL] exception. *)
Definition raises_InvalidURL {A} (r : outcome A) : Prop :=
  match r with
  | Raise (InvalidURL _ _) => True
  | _ => False
  end.

#[global] Instance raises_InvalidURL_dec {A} (r : outcome A) :
  Decision (raises_InvalidURL r).
Proof. destruct r as [a|[]]; simpl; apply _. Defined.

(** ** Python list and string primitives used by the sources *)

(** [x in l] for a list of strings. *)
Definition py_in (x : string) (l : list string) : bool :=
  bool_decide (x ∈ l).

(** [l[-1]]: the last element, [IndexError] on the empty list. *)
Definition py_last {A} (l : list A) : outcome A :=
  match last l with
  | Some x => Return x
  | None => Raise IndexError
  end.

(** [l[i]] for an index [i >= 0]: [IndexError] when out of range. *)
Definition py_getitem {A} (l : list A) (i : nat) : outcome A :=
  match l !! i with
  | Some x => Return x
  | None => Raise IndexError
  end.

(** [l.index(x)]: the position of the first occurrence, [ValueError] when
    there is none. *)
Fixpoint py_index (x : string) (l : list string) : outcome nat :=
  match l with
  | [] => Raise (ValueError "x not in list")
  | y :: l' => if decide (y = x) then Return O else omap S (py_index x l')
  end.

(** [l[a:b]] for [0 <= a]: the elements at the positions [a], ..., [b-1]
    that exist. *)
Definition py_slice {A} (l : list A) (a b : Z) : list A :=
  take (Z.to_nat (b - a)) (drop (Z.to_nat a) l).

(** [range(start, stop, step)], as the list of the integers it produces.
    A zero step raises [ValueError]. *)
Fixpoint range_up (fuel : nat) (pos stop step : Z) : list Z :=
  match fuel with
  | O => []
  | S fuel' =>
      if pos <? stop then pos :: range_up fuel' (pos + step) stop step else []
  end.

Fixpoint range_down (fuel : nat) (pos stop step : Z) : list Z :=
  match fuel with
  | O => []
  | S fuel' =>
      if stop <? pos then pos :: range_down fuel' (pos + step) stop step else []
  end.

Definition py_range (start stop step : Z) : outcome (list Z) :=
  if step =? 0 then Raise (ValueError "range() arg 3 must not be zero")
  else if 0 <? step then Return (range_up (Z.to_nat (stop - start)) start stop step)
  else Return (range_down (Z.to_nat (start - stop)) start stop step).

(** [sep.join(l)]. *)
Definition py_join (sep : string) (l : list string) : string :=
  String.concat sep l.

(** [s.isalnum()]: [s] is not empty and all its characters are
    alphanumeric.  Whether all the characters of a string are alphanumeric
    is decided by [all_alnum], the classification of the Unicode character
    database behind Python's [str]. *)
Definition str_isalnum (all_alnum : string -> bool) (s : string) : bool :=
  match s with
  | EmptyString => false
  | _ => all_alnum s
  end.

(** ** Submission._chunk (submission.py, lines 633-639) *)

(** [all_submissions]: the submission's own fullname, then the fullnames of
    [other_submissions] when that argument is neither [None] nor empty. *)
Definition all_submissions (fullname : string)
    (other_submissions : option (list string)) : list string :=
  [fullname] ++
  match other_submissions with
  | Some (x :: l) => x :: l
  | _ => []
  end.

(** The groups of fullnames [all_submissions[position : position + 50]], one
    for each [position] of [range(0, len(all_submissions), chunk_size)]. *)
Definition _chunk_groups (chunk_size : Z) (fullname : string)
    (other_submissions : option (list string)) : outcome (list (list string)) :=
  let all := all_submissions fullname other_submissions in
  let* positions := py_range 0 (Z.of_nat (length all)) chunk_size in
  Return (map (fun position => py_slice all position (position + 50)) positions).

(** What the generator yields: each group joined with commas. *)
Definition _chunk (chunk_size : Z) (fullname : string)
    (other_submissions : option (list string)) : outcome (list string) :=
  omap (map (py_join ",")) (_chunk_groups chunk_size fullname other_submissions).

(** [ceil(a / b)] for [b > 0]. *)
Definition ceil_div (a b : Z) : Z := (a + b - 1) / b.

(** The chunking contract of the specification, for a result [groups] of the
    identifier list [all] and the maximum group size [G]. *)
Definition chunk_contract (G : Z) (all : list string)
    (groups : list (list string)) : Prop :=
  Z.of_nat (length groups) = ceil_div (Z.of_nat (length all)) G
  ∧ Forall (fun g => Z.of_nat (length g) <= G) groups
  ∧ concat groups = all.

(** ** Values, objects and the world *)

#[local] Set Warnings "-register-all".

(** The decoded JSON of the wire format: what the transport returns and what
    the records given to the constructors are made of.  Numbers are
    integers. *)
Inductive json : Type :=
  | JNull
  | JBool (b : bool)
  | JInt (n : Z)
  | JStr (s : string)
  | JList (l : list json)
  | JDict (d : list (string * json)).

(** [reddit.config]: the two settings the sources read. *)
Record Config : Type := {
  warn_comment_sort : bool;
  kinds : list (string * string)
}.

(** Python values: plain data, the [Reddit] instance, and the typed objects
    that [Submission.__setattr__] builds.  [Redditor], [Subreddit], [PollData]
    and [CommentForest] are classes of other modules; an instance is kept as
    the constructor call that made it ([VCommentForest] as its list of
    root-level nodes, each the record it was built from). *)
Inductive value : Type :=
  | VJson (j : json)
  | VReddit (config : Config)
  | VRedditor (reddit : value) (data : value)
  | VSubreddit (reddit : value) (display_name : value)
  | VPollData (reddit : value) (data : value)
  | VCommentForest (comments : list json).

Definition VNone : value := VJson JNull.
Definition VBool (b : bool) : value := VJson (JBool b).
Definition VInt (n : Z) : value := VJson (JInt n).
Definition VStr (s : string) : value := VJson (JStr s).

(** Truth value of a Python value in a condition. *)
Definition truthy (v : value) : bool :=
  match v with
  | VJson JNull => false
  | VJson (JBool b) => b
  | VJson (JInt n) => negb (n =? 0)
  | VJson (JStr s) => negb (String.eqb s "")
  | VJson (JList l) => match l with [] => false | _ => true end
  | VJson (JDict d) => match d with [] => false | _ => true end
  | _ => true
  end.

(** [j[key]] for a string key. *)
Fixpoint assoc_get {A} (key : string) (d : list (string * A)) : option A :=
  match d with
  | [] => None
  | (k, v) :: d' => if decide (k = key) then Some v else assoc_get key d'
  end.

Definition json_getkey (j : json) (key : string) : outcome json :=
  match j with
  | JDict d =>
      match assoc_get key d with
      | Some v => Return v
      | None => Raise (KeyError key)
      end
  | _ => Raise (TypeError "indices must be integers")
  end.

(** [j[0]]. *)
Definition json_first (j : json) : outcome json :=
  match j with
  | JList (x :: _) => Return x
  | JList [] => Raise IndexError
  | JStr (String c _) => Return (JStr (String c EmptyString))
  | JStr EmptyString => Raise IndexError
  | JDict _ => Raise (KeyError "0")
  | _ => Raise (TypeError "object is not subscriptable")
  end.

(** An instance is its [__dict__]. *)
Abbreviation obj := (gmap string value).

(** A request handed to the transport.  The path is an entry of the
    [API_PATH] table with the fields that fill its placeholders. *)
Record request : Type := {
  method : string;
  path : string * list (string * value);
  params : list (string * value);
  data : list (string * value)
}.

(** The observable effects: the requests issued so far and the warnings
    emitted so far, oldest first. *)
Record world : Type := {
  requests : list request;
  warnings : list string
}.

(** Computations that may issue requests, warn and raise. *)
Definition M (A : Type) : Type := world -> outcome A * world.

Definition ret {A} (a : A) : M A := fun w => (Return a, w).

Definition raise {A} (e : exn) : M A := fun w => (Raise e, w).

Definition lift {A} (r : outcome A) : M A := fun w => (r, w).

Definition mbind {A B} (m : M A) (f : A -> M B) : M B := fun w =>
  match m w with
  | (Return a, w') => f a w'
  | (Raise e, w') => (Raise e, w')
  end.

Notation "'do*' x ':=' m 'in' k" := (mbind m (fun x => k))
  (at level 10, x name, m at level 100, k at level 200).

(** [warn(message)]. *)
Definition warn (message : string) : M unit := fun w =>
  (Return tt, {| requests := requests w; warnings := warnings w ++ [message] |}).

(** [try: body except Conflict: pass], whose value is then [None]. *)
Definition except_Conflict_pass (body : M value) : M value := fun w =>
  match body w with
  | (Raise Conflict, w') => (Return VNone, w')
  | r => r
  end.

(** [for x in l: self = f(self, x)]. *)
Fixpoint for_each {A S} (f : S -> A -> M S) (l : list A) (s : S) : M S :=
  match l with
  | [] => ret s
  | x :: l' => do* s' := f s x in for_each f l' s'
  end.

(** [self.attribute] for the instance attributes the sources read
    ([_reddit], [_fetched], [id], [comment_limit], [comment_sort],
    [comments]): the entry of the [__dict__], [AttributeError] when there is
    none.  [hasattr] tells whether there is one. *)
Definition getattr (self : obj) (attribute : string) : outcome value :=
  match self !! attribute with
  | Some v => Return v
  | None => Raise (AttributeError attribute)
  end.

Definition hasattr (self : obj) (attribute : string) : bool :=
  bool_decide (is_Some (self !! attribute)).

(** [reddit.config] of a value: only a [Reddit] instance has one. *)
Definition config_of (reddit : value) : outcome Config :=
  match reddit with
  | VReddit c => Return c
  | _ => Raise (AttributeError "config")
  end.

(** [reddit.name] for a method [name] of the class [Reddit]: only a [Reddit]
    instance has it. *)
Definition Reddit_method (reddit : value) (name : string) : outcome unit :=
  match reddit with
  | VReddit _ => Return tt
  | _ => Raise (AttributeError name)
  end.

(** The properties the class [Submission] defines without a setter
    ([_kind] and [shortlink] in submission.py, [fullname] in the fullname
    mixin): [object.__setattr__] refuses to assign them. *)
Definition read_only_properties : list string := ["_kind"; "shortlink"; "fullname"].

(** [object.__setattr__(self, attribute, value)]. *)
Definition object__setattr__ (self : obj) (attribute : string) (v : value)
    : outcome obj :=
  if py_in attribute read_only_properties then Raise (AttributeError attribute)
  else Return (<[attribute := v]> self).

(** [delattr(self, attribute)]. *)
Definition delattr (self : obj) (attribute : string) : outcome obj :=
  match self !! attribute with
  | Some _ => Return (delete attribute self)
  | None => Raise (AttributeError attribute)
  end.

(** Modelled from the spec: Redditor.from_data (models/reddit/redditor.py) is
    not among the sources; the specification (2, 4.2) has the author field
    wrapped into a user reference built, without any fetch, from the assigned
    raw value. *)
Definition Redditor_from_data (reddit : value) (data : value) : value :=
  VRedditor reddit data.

(** Modelled from the spec: CommentForest (models/comment_forest.py) is not
    among the sources; the specification (3, 4.3) has the forest created empty
    at the construction of its entity, and [_update] replace the root-level
    sequence wholesale. *)
Definition CommentForest (submission : obj) : value := VCommentForest [].

Definition CommentForest_update (forest : value) (children : list json)
    : outcome value :=
  match forest with
  | VCommentForest _ => Return (VCommentForest children)
  | _ => Raise (AttributeError "_update")
  end.

(** Modelled from the spec: Listing (models/listing/listing.py) is not among
    the sources; the specification (6) has a list response wrap its children
    as an ordered sequence of kind and data pairs.  [Listing d] is the
    instance [Listing(reddit, _data=d)], kept as the fields of [d], and
    [Listing_children] is its attribute [children]. *)
Definition Listing (d : json) : outcome (list (string * json)) :=
  match d with
  | JDict fields => Return fields
  | JNull | JBool false | JInt 0 | JStr EmptyString | JList [] => Return []
  | _ => Raise (AttributeError "items")
  end.

Definition Listing_children (listing : list (string * json))
    : outcome (list json) :=
  match assoc_get "children" listing with
  | Some (JList l) => Return l
  | Some _ => Raise (TypeError "object is not iterable")
  | None => Raise (AttributeError "children")
  end.

(** The text of the warning of [Submission.__setattr__]. *)
Definition comment_sort_warning : string :=
  "The comments for this submission have already been fetched, so the updated comment_sort will not have any effect".

Definition identity_error : exn :=
  TypeError "Exactly one of 'id', 'url', or '_data' must be provided.".

Section Model.

(** The classification of characters behind [str.isalnum]: whether all the
    characters of a string are letters or digits of the Unicode character
    database, which is not among the sources. *)
Variable all_alnum : string -> bool.

(** [RedditBase._url_parts] is defined in models/reddit/base.py, which is
    not among the sources: it is a parameter here.  It either raises or
    returns the list of the segments of the path of the URL. *)
Variable _url_parts : string -> outcome (list string).

(** The table [API_PATH] of const.py, not among the sources. *)
Variable API_PATH : string -> option string.

(** The property [fullname] of the fullname mixin, not among the sources. *)
Variable fullname : obj -> outcome string.

(** The transport behind [Reddit.request] and [Reddit.post]: its answer to
    a request, given the requests it has served before. *)
Variable transport : list request -> request -> outcome json.

(** *** Submission.id_from_url (submission.py, lines 462-496) *)

Definition id_from_url (url : string) : outcome string :=
  let* parts := _url_parts url in
  let* submission_id :=
    if negb (py_in "comments" parts) && negb (py_in "gallery" parts) then
      let* submission_id := py_last parts in
      if py_in "r" parts then
        Raise (InvalidURL url (Some "Invalid URL (subreddit, not submission): {}"))
      else Return submission_id
    else if py_in "gallery" parts then
      let* i := py_index "gallery" parts in
      py_getitem parts (i + 1)
    else
      let* l := py_last parts in
      if decide (l = "comments") then
        Raise (InvalidURL url (Some "Invalid URL (submission ID not present): {}"))
      else
        let* i := py_index "comments" parts in
        py_getitem parts (i + 1)
  in
  if negb (str_isalnum all_alnum submission_id) then Raise (InvalidURL url None)
  else Return submission_id.

(** *** Submission.__setattr__ (submission.py, lines 612-631) *)

(** The condition of the last branch, with the short-circuit evaluation of
    [and]: [hasattr(self, "_fetched") and self._fetched and
    hasattr(self, "_reddit") and self._reddit.config.warn_comment_sort]. *)
Definition warn_condition (self : obj) : outcome bool :=
  if negb (hasattr self "_fetched") then Return false
  else
    let* fetched := getattr self "_fetched" in
    if negb (truthy fetched) then Return false
    else if negb (hasattr self "_reddit") then Return false
    else
      let* reddit := getattr self "_reddit" in
      let* config := config_of reddit in
      Return (warn_comment_sort config).

Definition __setattr__ (self : obj) (attribute : string) (v : value) : M obj :=
  do* v :=
    if decide (attribute = "author") then
      do* reddit := lift (getattr self "_reddit") in
      ret (Redditor_from_data reddit v)
    else if decide (attribute = "subreddit") then
      do* reddit := lift (getattr self "_reddit") in
      ret (VSubreddit reddit v)
    else if decide (attribute = "poll_data") then
      do* reddit := lift (getattr self "_reddit") in
      ret (VPollData reddit v)
    else if decide (attribute = "comment_sort") then
      do* c := lift (warn_condition self) in
      if c then do* _ := warn comment_sort_warning in ret v
      else ret v
    else ret v
  in
  lift (object__setattr__ self attribute v).

(** Modelled from the spec: RedditBase.__init__ (models/reddit/base.py and
    the base class under it) is not among the sources.  The specification
    (3, 4.2) has an entity created unfetched, with the fields of the record
    it is given assigned through the attribute hook, so that constructor
    data is normalized as any other assignment is.  [assign_item] is
    [setattr(self, attribute, value)] for an item of the record. *)
Definition assign_item (self : obj) (item : string * json) : M obj :=
  __setattr__ self (fst item) (VJson (snd item)).

Definition RedditBase__init__ (self : obj) (reddit : value)
    (_data : option (list (string * json))) : M obj :=
  do* self := __setattr__ self "_reddit" reddit in
  do* self :=
    match _data with
    | Some (item :: items) => for_each assign_item (item :: items) self
    | _ => ret self
    end
  in
  __setattr__ self "_fetched" (VBool false).

(** *** Submission.__init__ (submission.py, lines 546-577) *)

(** [(id, url, _data).count(None)]. *)
Definition count_None (id url : option string)
    (_data : option (list (string * json))) : nat :=
  (match id with None => 1 | Some _ => 0 end
   + match url with None => 1 | Some _ => 0 end
   + match _data with None => 1 | Some _ => 0 end)%nat.

Definition __init__ (reddit : value) (id url : option string)
    (_data : option (list (string * json))) : M obj :=
  if negb (count_None id url _data =? 2)%nat then raise identity_error
  else
    do* self := __setattr__ ∅ "comment_limit" (VInt 2048) in
    do* self := __setattr__ self "comment_sort" (VStr "confidence") in
    do* self :=
      match id, url with
      | Some (String c i), _ => __setattr__ self "id" (VStr (String c i))
      | _, Some (String c u) =>
          do* i := lift (id_from_url (String c u)) in
          __setattr__ self "id" (VStr i)
      | _, _ => ret self
      end
    in
    do* self := RedditBase__init__ self reddit _data in
    do* self := __setattr__ self "_comments_by_id" (VJson (JDict [])) in
    __setattr__ self "comments" (CommentForest self).

(** *** The transport *)

(** [reddit.request(...)] and [reddit.post(...)] on a value: only a
    [Reddit] instance has these methods; the request is logged and the
    transport answers it. *)
Definition Reddit_call (reddit : value) (name : string) (r : request) : M json :=
  match reddit with
  | VReddit _ => fun w =>
      (transport (requests w) r,
       {| requests := requests w ++ [r]; warnings := warnings w |})
  | _ => raise (AttributeError name)
  end.

(** [API_PATH[name]]. *)
Definition API_PATH_get (name : string) : outcome string :=
  match API_PATH name with
  | Some p => Return p
  | None => Raise (KeyError name)
  end.

(** *** Submission._fetch_info, _fetch_data and _fetch
        (submission.py, lines 641-666) *)

Definition _fetch_info (self : obj)
    : outcome (string * list (string * value) * list (string * value)) :=
  let* id := getattr self "id" in
  let* comment_limit := getattr self "comment_limit" in
  let* comment_sort := getattr self "comment_sort" in
  Return ("submission", [("id", id)],
          [("limit", comment_limit); ("sort", comment_sort)]).

Definition _fetch_data (self : obj) : M json :=
  do* info := lift (_fetch_info self) in
  let '(name, fields, params) := info in
  do* template := lift (API_PATH_get name) in
  do* reddit := lift (getattr self "_reddit") in
  Reddit_call reddit "request"
    {| method := "GET"; path := (template, fields); params := params; data := [] |}.

(** [submission_listing, comment_listing = data]. *)
Definition unpack_pair (j : json) : outcome (json * json) :=
  match j with
  | JList [a; b] => Return (a, b)
  | JDict [(a, _); (b, _)] => Return (JStr a, JStr b)
  | JList _ | JDict _ => Raise (ValueError "wrong number of values to unpack")
  | JStr (String a (String b EmptyString)) =>
      Return (JStr (String a EmptyString), JStr (String b EmptyString))
  | JStr _ => Raise (ValueError "wrong number of values to unpack")
  | _ => Raise (TypeError "cannot unpack non-iterable object")
  end.

(** The argument [_data] of the constructor, from a decoded value: [None]
    is no argument, another false value is a record without items, and a true
    value that is not a dictionary has no method [items]. *)
Definition as_record (j : json) : outcome (option (list (string * json))) :=
  match j with
  | JNull => Return None
  | JDict d => Return (Some d)
  | JBool false | JInt 0 | JStr EmptyString | JList [] => Return (Some [])
  | _ => Raise (AttributeError "items")
  end.

(** [submission_listing["data"]["children"][0]["data"]]. *)
Definition submission_data_of (submission_listing : json) : outcome json :=
  let* d := json_getkey submission_listing "data" in
  let* c := json_getkey d "children" in
  let* first := json_first c in
  json_getkey first "data".

(** The part of [_fetch] that follows the retrieval: the merge of the
    response [response] into [self]. *)
Definition merge_response (self : obj) (response : json) : M obj :=
  do* listings := lift (unpack_pair response) in
  let '(submission_listing, comment_listing) := listings in
  do* reddit := lift (getattr self "_reddit") in
  do* comment_data := lift (json_getkey comment_listing "data") in
  do* comment_listing := lift (Listing comment_data) in
  do* submission_data := lift (submission_data_of submission_listing) in
  do* record := lift (as_record submission_data) in
  do* submission := __init__ reddit None None record in
  do* submission := lift (delattr submission "comment_limit") in
  do* submission := lift (delattr submission "comment_sort") in
  do* submission := __setattr__ submission "comments" (CommentForest self) in
  let self := submission ∪ self in
  do* self := __setattr__ self "_fetched" (VBool true) in
  do* comments := lift (getattr self "comments") in
  do* children := lift (Listing_children comment_listing) in
  do* comments := lift (CommentForest_update comments children) in
  ret (<["comments" := comments]> self).

Definition _fetch (self : obj) : M obj :=
  do* response := _fetch_data self in
  merge_response self response.

(** *** SubmissionModeration.sticky (submission.py, lines 270-304) *)

Definition sticky_data (fn : string) (bottom state : bool)
    : list (string * value) :=
  [("id", VStr fn); ("state", VBool state)]
  ++ (if negb bottom then [("num", VInt 1)] else []).

(** The request of [sticky]. *)
Definition sticky_request (url fn : string) (bottom state : bool) : request :=
  {| method := "POST"; path := (url, []); params := [];
     data := sticky_data fn bottom state |}.

Definition sticky (thing : obj) (bottom state : bool) : M value :=
  do* fn := lift (fullname thing) in
  except_Conflict_pass (
    do* reddit := lift (getattr thing "_reddit") in
    do* _ := lift (Reddit_method reddit "post") in
    do* url := lift (API_PATH_get "sticky_submission") in
    do* response := Reddit_call reddit "post"
      (sticky_request url fn bottom state) in
    ret (VJson response)).

(** *** ThingModerationMixin.send_removal_message
        (mixins/__init__.py, lines 197-241) *)

(** A moderation object: the class attribute [REMOVAL_MESSAGE_API] of its
    class and the instance attribute [thing]. *)
Record moderation : Type := {
  REMOVAL_MESSAGE_API : option string;
  thing : obj
}.

(** [ThingModerationMixin] itself leaves the endpoint unset. *)
Definition ThingModerationMixin (thing : obj) : moderation :=
  {| REMOVAL_MESSAGE_API := None; thing := thing |}.

(** [SubmissionModeration] (submission.py, lines 85-105). *)
Definition SubmissionModeration (submission : obj) : moderation :=
  {| REMOVAL_MESSAGE_API := Some "removal_link_message"; thing := submission |}.

(** The request of [send_removal_message]; [dumps(data)] is kept as the
    dictionary it serializes. *)
Definition removal_message_request (url fn message title type : string)
    : request :=
  {| method := "POST"; path := (url, []); params := [];
     data := [("json", VJson (JDict [("item_id", JList [JStr fn]);
                                     ("message", JStr message);
                                     ("title", JStr title);
                                     ("type", JStr type)]))] |}.

Definition send_removal_message (self : moderation)
    (message title type : string) : M value :=
  match REMOVAL_MESSAGE_API self with
  | None => raise (NotImplementedError "ThingModerationMixin must be extended.")
  | Some api =>
      do* url := lift (API_PATH_get api) in
      do* fn := lift (fullname (thing self)) in
      do* reddit := lift (getattr (thing self) "_reddit") in
      do* response := Reddit_call reddit "post"
        (removal_message_request url fn message title type) in
      ret (if truthy (VJson response) then VJson response else VNone)
  end.

End Model.

(** ** The one-shot actions of the two files *)

Section Actions.

Variable all_alnum : string -> bool.
Variable _url_parts : string -> outcome (list string).
Variable API_PATH : string -> option string.
Variable fullname : obj -> outcome string.
Variable transport : list request -> request -> outcome json.

(** The callee and the first argument of
    [thing._reddit.post(API_PATH[endpoint], data=...)]: the bound method,
    then the entry of the table. *)
Definition post_target (thing : obj) (endpoint : string)
    : outcome (value * string) :=
  let* reddit := getattr thing "_reddit" in
  let* _ := Reddit_method reddit "post" in
  let* url := API_PATH_get API_PATH endpoint in
  Return (reddit, url).

(** A request [post(url, data=data)], the path [url] being the template
    [template] filled with [fields]. *)
Definition post_request (template : string) (fields data : list (string * value))
    : request :=
  {| method := "POST"; path := (template, fields); params := []; data := data |}.

(** *** ThingModerationMixin.approve, ignore_reports, lock, unignore_reports
        and unlock (mixins/__init__.py, lines 53-74, 110-159, 266-313) *)

(** The five methods are the same statement for five entries of [API_PATH]:
    [await self.thing._reddit.post(API_PATH[endpoint],
    data={"id": self.thing.fullname})]. *)
Definition post_fullname (endpoint : string) (thing : obj) : M unit :=
  do* target := lift (post_target thing endpoint) in
  do* fn := lift (fullname thing) in
  do* _ := Reddit_call transport (fst target) "post"
             (post_request (snd target) [] [("id", VStr fn)]) in
  ret tt.

Definition approve : obj -> M unit := post_fullname "approve".
Definition ignore_reports : obj -> M unit := post_fullname "ignore_reports".
Definition lock : obj -> M unit := post_fullname "lock".
Definition unignore_reports : obj -> M unit := post_fullname "unignore_reports".
Definition unlock : obj -> M unit := post_fullname "unlock".

(** *** ThingModerationMixin._add_removal_reason and remove
        (mixins/__init__.py, lines 27-51 and 161-195) *)

(** Truth value of an optional string: [None] and the empty string are
    false. *)
Definition truthy_opt (s : option string) : bool :=
  match s with
  | Some (String _ _) => true
  | _ => false
  end.

Definition json_opt (s : option string) : json :=
  match s with
  | Some x => JStr x
  | None => JNull
  end.

(** The request of [_add_removal_reason]; [dumps(data)] is kept as the
    dictionary it serializes. *)
Definition removal_reason_request (url fn mod_note : string)
    (reason_id : option string) : request :=
  post_request url []
    [("json", VJson (JDict [("item_ids", JList [JStr fn]);
                            ("mod_note", JStr mod_note);
                            ("reason_id", json_opt reason_id)]))].

Definition _add_removal_reason (thing : obj) (mod_note : string)
    (reason_id : option string) : M unit :=
  if negb (truthy_opt reason_id) && negb (truthy_opt (Some mod_note)) then
    raise (ValueError "mod_note cannot be blank if reason_id is not specified")
  else
    do* fn := lift (fullname thing) in
    do* target := lift (post_target thing "removal_reasons") in
    do* _ := Reddit_call transport (fst target) "post"
               (removal_reason_request (snd target) fn mod_note reason_id) in
    ret tt.

Definition remove_request (url fn : string) (spam : bool) : request :=
  post_request url [] [("id", VStr fn); ("spam", VBool spam)].

Definition remove (thing : obj) (mod_note : string) (spam : bool)
    (reason_id : option string) : M unit :=
  do* fn := lift (fullname thing) in
  do* target := lift (post_target thing "remove") in
  do* _ := Reddit_call transport (fst target) "post"
             (remove_request (snd target) fn spam) in
  if truthy_opt reason_id || truthy_opt (Some mod_note) then
    _add_removal_reason thing mod_note reason_id
  else ret tt.

(** *** ThingModerationMixin.distinguish and undistinguish
        (mixins/__init__.py, lines 76-108 and 243-264), on the moderation
        object of a submission *)

(** [getattr(thing, "is_root", False)]. *)
Definition is_root (thing : obj) : value :=
  match thing !! "is_root" with
  | Some v => v
  | None => VBool false
  end.

Definition distinguish_request (url fn how : string) (sticky : bool) : request :=
  post_request url []
    ([("how", VStr how); ("id", VStr fn)]
     ++ (if sticky then [("sticky", VBool true)] else [])).

(** The result is the submission as [_fetch] leaves it. *)
Definition distinguish (thing : obj) (how : string) (sticky : bool) : M obj :=
  do* fn := lift (fullname thing) in
  do* thing := _fetch all_alnum _url_parts API_PATH transport thing in
  let with_sticky := sticky && truthy (is_root thing) in
  do* target := lift (post_target thing "distinguish") in
  do* _ := Reddit_call transport (fst target) "post"
             (distinguish_request (snd target) fn how with_sticky) in
  ret thing.

Definition undistinguish (thing : obj) : M obj := distinguish thing "no" false.

(** *** SubmissionFlair.choices (submission.py, lines 35-53) *)

(** [if not self.submission._fetched: await self.submission._fetch()]. *)
Definition fetch_if_needed (submission : obj) : M obj :=
  do* fetched := lift (getattr submission "_fetched") in
  if negb (truthy fetched) then _fetch all_alnum _url_parts API_PATH transport submission
  else ret submission.

Definition choices_request (template : string) (subreddit : value) (fn : string)
    : request :=
  post_request template [("subreddit", subreddit)] [("link", VStr fn)].

(** The result is the submission, fetched if it was not, and the choices. *)
Definition choices (submission : obj) : M (obj * json) :=
  do* submission := fetch_if_needed submission in
  do* template := lift (API_PATH_get API_PATH "flairselector") in
  do* subreddit := lift (getattr submission "subreddit") in
  do* reddit := lift (getattr submission "_reddit") in
  do* _ := lift (Reddit_method reddit "post") in
  do* fn := lift (fullname submission) in
  do* data := Reddit_call transport reddit "post"
                (choices_request template subreddit fn) in
  do* result := lift (json_getkey data "choices") in
  ret (submission, result).

(** *** Submission.hide and unhide (submission.py, lines 740-765 and
        783-808) *)

(** [[x.fullname for x in other_submissions]], when [other_submissions] is
    not [None]. *)
Fixpoint fullnames (submissions : list obj) : outcome (list string) :=
  match submissions with
  | [] => Return []
  | x :: l =>
      let* fn := fullname x in
      let* fns := fullnames l in
      Return (fn :: fns)
  end.

Definition other_fullnames (other_submissions : option (list obj))
    : outcome (option (list string)) :=
  match other_submissions with
  | Some (x :: l) => omap Some (fullnames (x :: l))
  | Some [] => Return (Some [])
  | None => Return None
  end.

(** The body of the loop of [hide] and [unhide]. *)
Definition post_chunk (endpoint : string) (self : obj) (_ : unit)
    (submissions : string) : M unit :=
  do* target := lift (post_target self endpoint) in
  do* _ := Reddit_call transport (fst target) "post"
             (post_request (snd target) [] [("id", VStr submissions)]) in
  ret tt.

(** [hide] and [unhide] are the same loop for two entries of [API_PATH]. *)
Definition hide_loop (endpoint : string) (self : obj)
    (other_submissions : option (list obj)) : M unit :=
  do* fn := lift (fullname self) in
  do* others := lift (other_fullnames other_submissions) in
  do* chunks := lift (_chunk 50 fn others) in
  for_each (post_chunk endpoint self) chunks tt.

Definition hide : obj -> option (list obj) -> M unit := hide_loop "hide".
Definition unhide : obj -> option (list obj) -> M unit := hide_loop "unhide".

End Actions.

(** Modelled from the spec: RedditBase._url_parts (models/reddit/base.py) is
    not among the sources; the specification (4.1) says it tokenizes the path
    of the URL into segments.  This tokenizer covers the URLs of the form
    scheme://host/path?query#fragment: an URL without a host is an
    [InvalidURL], trailing slashes of the path are dropped and the path is
    split at every slash.  It only serves to run [id_from_url] on concrete
    URLs; the theorems hold for every tokenizer. *)
Fixpoint after_scheme (s : string) : option string :=
  match s with
  | String ":" (String "/" (String "/" rest)) => Some rest
  | String _ s' => after_scheme s'
  | EmptyString => None
  end.

Fixpoint span_until (stop : Ascii.ascii -> bool) (s : string) : string * string :=
  match s with
  | EmptyString => (EmptyString, EmptyString)
  | String c s' =>
      if stop c then (EmptyString, s)
      else let '(a, b) := span_until stop s' in (String c a, b)
  end.

Fixpoint rstrip_slash (s : string) : string :=
  match s with
  | EmptyString => EmptyString
  | String c s' =>
      match rstrip_slash s' with
      | EmptyString => if Ascii.eqb c "/" then EmptyString else String c EmptyString
      | r => String c r
      end
  end.

Fixpoint split_slash (s : string) : list string :=
  match s with
  | EmptyString => [EmptyString]
  | String c s' =>
      if Ascii.eqb c "/" then EmptyString :: split_slash s'
      else match split_slash s' with
           | [] => [String c EmptyString]
           | w :: ws => String c w :: ws
           end
  end.

Definition is_path_start (c : Ascii.ascii) : bool :=
  Ascii.eqb c "/" || Ascii.eqb c "?" || Ascii.eqb c "#".

Definition is_path_end (c : Ascii.ascii) : bool :=
  Ascii.eqb c "?" || Ascii.eqb c "#".

Definition url_path_segments (url : string) : outcome (list string) :=
  match after_scheme url with
  | None => Raise (InvalidURL url None)
  | Some rest =>
      let '(netloc, tail) := span_until is_path_start rest in
      if decide (netloc = "") then Raise (InvalidURL url None)
      else
        let '(path, _) := span_until is_path_end tail in
        Return (split_slash (rstrip_slash path))
  end.

(** ** Fixtures for running the model *)

(** Modelled from the spec: the property [fullname] of the fullname mixin is
    not among the sources; the specification (3) says the fullname is the
    kind-prefixed id.  The kind is [Submission._kind] (submission.py, lines
    531-534), the entry [submission] of [reddit.config.kinds]. *)
Definition kind_prefixed_fullname (self : obj) : outcome string :=
  let* reddit := getattr self "_reddit" in
  let* config := config_of reddit in
  let* kind :=
    match assoc_get "submission" (kinds config) with
    | Some k => Return k
    | None => Raise (KeyError "submission")
    end in
  let* id := getattr self "id" in
  match id with
  | VJson (JStr s) => Return (kind ++ "_" ++ s)%string
  | _ => Raise (TypeError "the id is not a string")
  end.

(** The classification of the strings of ASCII characters: all of them are
    ASCII digits or letters. *)
Definition char_isalnum (c : Ascii.ascii) : bool :=
  let n := nat_of_ascii c in
  ((48 <=? n) && (n <=? 57) || (65 <=? n) && (n <=? 90)
   || (97 <=? n) && (n <=? 122))%nat.

Definition ascii_alnum (s : string) : bool :=
  forallb char_isalnum (list_ascii_of_string s).

Definition example_config : Config :=
  {| warn_comment_sort := true; kinds := [("submission", "t3")] |}.

Definition example_reddit : value := VReddit example_config.

Definition example_API_PATH (name : string) : option string :=
  assoc_get name
    [("submission", "comments/{id}/");
     ("sticky_submission", "api/set_subreddit_sticky/");
     ("removal_link_message", "api/v1/modactions/removal_link_message")].

(** A response to the retrieval of the submission [2gmzqe]: the listing of
    the submission and the listing of one comment. *)
Definition example_record : list (string * json) :=
  [("id", JStr "2gmzqe"); ("author", JStr "bboe");
   ("subreddit", JStr "redditdev"); ("title", JStr "praw https");
   ("poll_data", JDict [("total_vote_count", JInt 3)])].

Definition example_response : json :=
  JList
    [JDict [("kind", JStr "Listing");
            ("data", JDict [("children",
               JList [JDict [("kind", JStr "t3");
                             ("data", JDict example_record)]])])];
     JDict [("kind", JStr "Listing");
            ("data", JDict [("children",
               JList [JDict [("kind", JStr "t1");
                             ("data", JDict [("id", JStr "ckkh5lg")])]])])]].

(** A transport whose backing data never changes. *)
Definition steady_transport (history : list request) (r : request)
    : outcome json :=
  Return example_response.

(** A transport that answers every request with the response [response]. *)
Definition constant_transport (response : json) (history : list request)
    (r : request) : outcome json :=
  Return response.

(** A response whose submission record is [null]. *)
Definition null_record_response : json :=
  JList
    [JDict [("data", JDict [("children",
               JList [JDict [("kind", JStr "t3"); ("data", JNull)]])])];
     JDict [("data", JDict [("children", JList [])])]].

(** A transport that answers every request with the error [e]. *)
Definition failing_transport (e : exn) (history : list request) (r : request)
    : outcome json :=
  Raise e.

Definition empty_world : world := {| requests := []; warnings := [] |}.

(** ** Notions for the statements *)

(** [sent r w]: the world [w] after the request [r]. *)
Definition sent (r : request) (w : world) : world :=
  {| requests := requests w ++ [r]; warnings := warnings w |}.

(** The request of [_fetch_data] for the identifier [id] and the ordering
    parameters [comment_limit] and [comment_sort]. *)
Definition fetch_request (template : string) (id comment_limit comment_sort : value)
    : request :=
  {| method := "GET"; path := (template, [("id", id)]);
     params := [("limit", comment_limit); ("sort", comment_sort)]; data := [] |}.

(** A transport that answers every request. *)
Definition answers_all (transport : list request -> request -> outcome json)
    : Prop :=
  forall history r, exists j, transport history r = Return j.

(** The attributes that [_fetch] sets whatever the record carries. *)
Definition fetch_attributes : list string :=
  ["_reddit"; "_fetched"; "_comments_by_id"; "comments"].

(** [emit ws w]: the world [w] after the warnings [ws]. *)
Definition emit (ws : list string) (w : world) : world :=
  {| requests := requests w; warnings := warnings w ++ ws |}.

(** A computation is offline when it issues no request and its result and
    the warnings it emits are the same in every world. *)
Definition offline {A} (m : M A) : Prop :=
  exists (r : outcome A) (ws : list string), forall w, m w = (r, emit ws w).

(** The instance that [Submission.__init__] builds from an identifier alone. *)
Definition new_submission (reddit : value) (id : string) : obj :=
  <["comments" := VCommentForest []]>
  (<["_comments_by_id" := VJson (JDict [])]>
  (<["_fetched" := VBool false]>
  (<["_reddit" := reddit]>
  (<["id" := VStr id]>
  (<["comment_sort" := VStr "confidence"]>
  (<["comment_limit" := VInt 2048]> ∅)))))).

(** Section 8, ordering parameters: the assignment does not raise, the stored
    value is the assigned one, and a warning has been emitted. *)
Definition ordering_assignment_contract (self : obj) (attribute : string)
    (v : value) (w : world) : Prop :=
  exists self' w',
    __setattr__ self attribute v w = (Return self', w')
    /\ self' !! attribute = Some v
    /\ warnings w' <> warnings w.

(** The submission [reddit.submission("2gmzqe", fetch=False)] and the same
    after [_fetched] has become true. *)
Definition example_submission : obj := new_submission example_reddit "2gmzqe".

Definition fetched_submission : obj :=
  <["_fetched" := VBool true]> example_submission.

(** The retrieval of the example submission from the steady transport. *)
Definition example_fetch : outcome obj * world :=
  _fetch ascii_alnum url_path_segments example_API_PATH steady_transport
    example_submission empty_world.

(** The instance [self] after the merge of the transient instance
    [submission] and of the replies [children]: what [_fetch] leaves. *)
Definition hydrated (submission self : obj) (children : list json) : obj :=
  <["comments" := VCommentForest children]>
  (<["_fetched" := VBool true]>
  ((<["comments" := CommentForest self]>
    (delete "comment_sort" (delete "comment_limit" submission))) ∪ self)).

(** The instance with the two ordering parameters alone, as the constructor
    has it before it looks at its arguments. *)
Definition blank_submission : obj :=
  <["comment_sort" := VStr "confidence"]> (<["comment_limit" := VInt 2048]> ∅).

(** The typed object that [Submission.__setattr__] stores for the raw value
    [raw] assigned to a normalized field. *)
Definition typed_object (attribute : string) (reddit raw : value) : value :=
  if decide (attribute = "author") then VRedditor reddit raw
  else if decide (attribute = "subreddit") then VSubreddit reddit raw
  else VPollData reddit raw.

Definition normalized_fields : list string := ["author"; "subreddit"; "poll_data"].

(** The slices of a given width of a list, at the given positions. *)
Definition slices {A} (width : Z) (l : list A) (positions : list Z)
    : list (list A) :=
  map (fun position => py_slice l position (position + width)) positions.

(** The final check of [id_from_url] on an extracted identifier. *)
Definition checked (all_alnum : string -> bool) (url id : string)
    : outcome string :=
  if negb (str_isalnum all_alnum id) then Raise (InvalidURL url None) else Return id.

(** The four URL formats of the docstring of [id_from_url], as the segments
    of their paths, for the identifier [id]: the short link, the comments
    path, the permalink inside a subreddit and the gallery path.  The side
    conditions keep the words [gallery], [comments] and [r] out of the places
    where the function would take them for a marker. *)
Inductive accepted_shape (id : string) : list string -> Prop :=
  | shape_shortlink :
      id ∉ ["comments"; "gallery"; "r"] ->
      accepted_shape id [""; id]
  | shape_comments rest :
      "gallery" ∉ id :: rest ->
      last (id :: rest) <> Some "comments" ->
      accepted_shape id ("" :: "comments" :: id :: rest)
  | shape_permalink subreddit rest :
      subreddit ∉ ["comments"; "gallery"] ->
      "gallery" ∉ id :: rest ->
      last (id :: rest) <> Some "comments" ->
      accepted_shape id ("" :: "r" :: subreddit :: "comments" :: id :: rest)
  | shape_gallery rest :
      accepted_shape id ("" :: "gallery" :: id :: rest).

(** The same four formats as the docstring lists them, without the side
    conditions. *)
Inductive docstring_shape (id : string) : list string -> Prop :=
  | doc_shortlink : docstring_shape id [""; id]
  | doc_comments rest : docstring_shape id ("" :: "comments" :: id :: rest)
  | doc_permalink subreddit rest :
      docstring_shape id ("" :: "r" :: subreddit :: "comments" :: id :: rest)
  | doc_gallery rest : docstring_shape id ("" :: "gallery" :: id :: rest).

(** ** Fixtures for the actions *)

(** The transient instance that the constructor builds from the record of
    the example response, and the example submission after its retrieval. *)
Definition example_transient : obj :=
  <["comments" := VCommentForest []]>
  (<["_comments_by_id" := VJson (JDict [])]>
  (<["_fetched" := VBool false]>
  (<["poll_data" := VPollData example_reddit
                      (VJson (JDict [("total_vote_count", JInt 3)]))]>
  (<["title" := VStr "praw https"]>
  (<["subreddit" := VSubreddit example_reddit (VStr "redditdev")]>
  (<["author" := VRedditor example_reddit (VStr "bboe")]>
  (<["id" := VStr "2gmzqe"]>
  (<["_reddit" := example_reddit]> blank_submission)))))))).

Definition example_children : list json :=
  [JDict [("kind", JStr "t1"); ("data", JDict [("id", JStr "ckkh5lg")])]].

Definition example_fetched (self : obj) : obj :=
  hydrated example_transient self example_children.

(** The request of the example retrieval and the world after it. *)
Definition example_fetch_request : request :=
  fetch_request "comments/{id}/" (VStr "2gmzqe") (VInt 2048) (VStr "confidence").

Definition example_fetch_world : world := sent example_fetch_request empty_world.

(** The entries of [API_PATH] that the actions use. *)
Definition actions_API_PATH (name : string) : option string :=
  assoc_get name
    [("submission", "comments/{id}/");
     ("approve", "api/approve/");
     ("lock", "api/lock/");
     ("remove", "api/remove/");
     ("removal_reasons", "api/v1/modactions/removal_reasons");
     ("distinguish", "api/distinguish/");
     ("flairselector", "r/{subreddit}/api/flairselector/");
     ("hide", "api/hide/");
     ("unhide", "api/unhide/");
     ("sticky_submission", "api/set_subreddit_sticky/");
     ("removal_link_message", "api/v1/modactions/removal_link_message")].

(** * Theorems *)

(** ** Chunking *)

Section ChunkFacts.

Context {A : Type}.
Variable width : Z.
Hypothesis width_pos : 0 < width.

Lemma py_slice_width (l : list A) (pos : Z) :
  py_slice l pos (pos + width) = take (Z.to_nat width) (drop (Z.to_nat pos) l).
Proof. unfold py_slice. do 2 f_equal. lia. Qed.

Lemma slices_concat (l : list A) : forall (fuel : nat) (pos : Z),
  0 <= pos ->
  Z.of_nat (length l) - pos <= Z.of_nat fuel ->
  concat (slices width l (range_up fuel pos (Z.of_nat (length l)) width))
  = drop (Z.to_nat pos) l.
Proof.
  induction fuel as [|fuel IH]; intros pos Hpos Hfuel; simpl.
  - rewrite drop_ge; [reflexivity | lia].
  - destruct (Z.ltb_spec pos (Z.of_nat (length l))) as [Hlt|Hge]; simpl.
    + rewrite py_slice_width, IH by lia.
      replace (Z.to_nat (pos + width)) with (Z.to_nat pos + Z.to_nat width)%nat by lia.
      rewrite <- drop_drop. apply take_drop.
    + rewrite drop_ge; [reflexivity | lia].
Qed.

Lemma slices_length (l : list A) (positions : list Z) :
  Forall (fun g => Z.of_nat (length g) <= width) (slices width l positions).
Proof.
  unfold slices. apply Forall_map, Forall_forall. intros pos _. simpl.
  rewrite py_slice_width, length_take. lia.
Qed.

Lemma range_up_length (stop : Z) : forall (fuel : nat) (pos : Z),
  stop - pos <= Z.of_nat fuel ->
  Z.of_nat (length (range_up fuel pos stop width))
  = Z.max 0 (ceil_div (stop - pos) width).
Proof.
  unfold ceil_div.
  induction fuel as [|fuel IH]; intros pos Hfuel; simpl.
  - assert ((stop - pos + width - 1) / width <= 0); [|lia].
    apply Z.lt_succ_r, Z.div_lt_upper_bound; lia.
  - destruct (Z.ltb_spec pos stop) as [Hlt|Hge]; simpl.
    + rewrite Nat2Z.inj_succ, IH by lia.
      replace (stop - pos + width - 1) with (stop - (pos + width) + width - 1 + 1 * width) by lia.
      rewrite Z.div_add by lia.
      assert (0 <= (stop - (pos + width) + width - 1) / width); [|lia].
      apply Z.div_pos; lia.
    + assert ((stop - pos + width - 1) / width <= 0); [|lia].
      apply Z.lt_succ_r, Z.div_lt_upper_bound; lia.
Qed.

End ChunkFacts.

(** What [_chunk] does for its callers [hide] and [unhide], which pass
    [chunk_size=50]: the groups meet the chunking contract. *)
Lemma _chunk_groups_50 (fullname : string) (other_submissions : option (list string)) :
  exists groups,
    _chunk_groups 50 fullname other_submissions = Return groups
    /\ chunk_contract 50 (all_submissions fullname other_submissions) groups.
Proof.
  unfold _chunk_groups.
  set (all := all_submissions fullname other_submissions).
  exists (slices 50 all (range_up (length all) 0 (Z.of_nat (length all)) 50)).
  split.
  - unfold py_range. cbn [Z.eqb Z.ltb Z.compare bind].
    rewrite Z.sub_0_r, Nat2Z.id. reflexivity.
  - repeat split.
    + unfold slices. rewrite length_map.
      rewrite (range_up_length 50) by lia.
      rewrite Z.sub_0_r. unfold ceil_div.
      assert (0 <= (Z.of_nat (length all) + 50 - 1) / 50); [|lia].
      apply Z.div_pos; lia.
    + apply slices_length. lia.
    + rewrite (slices_concat 50) by lia. reflexivity.
Qed.

(** C1.  With [chunk_size=1] and one other submission, [_chunk] yields the
    groups [t3_a,t3_b] and [t3_b]: the slice is fifty wide whatever
    [chunk_size] is, so the first group is larger than the maximum of one, the
    groups do not concatenate to the identifier list, and the chunking
    contract of the specification fails. *)
Theorem _chunk_ignores_chunk_size :
  _chunk_groups 1 "t3_a" (Some ["t3_b"]) = Return [["t3_a"; "t3_b"]; ["t3_b"]]
  /\ _chunk 1 "t3_a" (Some ["t3_b"]) = Return ["t3_a,t3_b"; "t3_b"]
  /\ ~ chunk_contract 1 (all_submissions "t3_a" (Some ["t3_b"]))
         [["t3_a"; "t3_b"]; ["t3_b"]].
Proof.
  split; [reflexivity|]. split; [reflexivity|].
  intros (_ & Hsize & _).
  apply Forall_cons in Hsize as [Hsize _]. simpl in Hsize. lia.
Qed.

(** ** Identifiers from URLs *)

Lemma py_in_true (x : string) (l : list string) : py_in x l = true <-> x ∈ l.
Proof. apply bool_decide_eq_true. Qed.

Lemma py_in_false (x : string) (l : list string) : py_in x l = false <-> x ∉ l.
Proof. apply bool_decide_eq_false. Qed.

Lemma py_index_first (x : string) (pre rest : list string) :
  x ∉ pre -> py_index x (pre ++ x :: rest) = Return (length pre).
Proof.
  induction pre as [|y pre IH]; intros Hpre; simpl.
  - rewrite decide_True; reflexivity.
  - apply not_elem_of_cons in Hpre as [Hy Hpre].
    rewrite decide_False by congruence. rewrite IH by assumption. reflexivity.
Qed.

Lemma py_getitem_after {A} (pre rest : list A) (x : A) :
  py_getitem (pre ++ x :: rest) (length pre + 1)
  = match rest with y :: _ => Return y | [] => Raise IndexError end.
Proof.
  unfold py_getitem.
  rewrite lookup_app_r by lia.
  replace (length pre + 1 - length pre)%nat with 1%nat by lia.
  destruct rest; reflexivity.
Qed.

Section IdFromUrlFacts.

Variable all_alnum : string -> bool.
Variable _url_parts : string -> outcome (list string).
Variables (url : string) (parts : list string).
Hypothesis Hparts : _url_parts url = Return parts.

(** A [gallery] segment wins over everything else: the identifier is the
    segment after its first occurrence. *)
Lemma id_from_url_gallery (pre rest : list string) :
  parts = pre ++ "gallery" :: rest ->
  "gallery" ∉ pre ->
  id_from_url all_alnum _url_parts url
  = match rest with
    | id :: _ => checked all_alnum url id
    | [] => Raise IndexError
    end.
Proof.
  intros -> Hpre. unfold id_from_url. rewrite Hparts. cbn [bind].
  assert (Hin : py_in "gallery" (pre ++ "gallery" :: rest) = true).
  { apply py_in_true, elem_of_app. right. left. }
  rewrite Hin, andb_false_r.
  rewrite py_index_first by assumption. cbn [bind].
  rewrite py_getitem_after. destruct rest; reflexivity.
Qed.

(** Without a [gallery] segment, a [comments] segment is the marker, unless
    it is the last segment. *)
Lemma id_from_url_comments (pre rest : list string) :
  parts = pre ++ "comments" :: rest ->
  "comments" ∉ pre ->
  "gallery" ∉ parts ->
  id_from_url all_alnum _url_parts url
  = if decide (last parts = Some "comments") then
      Raise (InvalidURL url (Some "Invalid URL (submission ID not present): {}"))
    else match rest with
         | id :: _ => checked all_alnum url id
         | [] => Raise IndexError
         end.
Proof.
  intros Heq Hpre Hgal. unfold id_from_url. rewrite Hparts. cbn [bind].
  apply py_in_false in Hgal. rewrite Hgal.
  assert (Hin : py_in "comments" parts = true).
  { apply py_in_true. subst parts. apply elem_of_app. right. left. }
  rewrite Hin. cbn [negb andb].
  unfold py_last. destruct (last parts) as [l|] eqn:Hlast.
  - cbn [bind]. destruct (decide (l = "comments")) as [->|Hl].
    + rewrite decide_True; reflexivity.
    + rewrite decide_False by congruence.
      subst parts. rewrite py_index_first by assumption. cbn [bind].
      rewrite py_getitem_after. destruct rest; reflexivity.
  - subst parts. rewrite last_app, last_cons in Hlast.
    destruct (last rest); discriminate.
Qed.

(** Without either marker the identifier is the last segment, and a
    segment [r] makes the URL the one of a subreddit. *)
Lemma id_from_url_last (id : string) :
  "comments" ∉ parts ->
  "gallery" ∉ parts ->
  last parts = Some id ->
  id_from_url all_alnum _url_parts url
  = if py_in "r" parts then
      Raise (InvalidURL url (Some "Invalid URL (subreddit, not submission): {}"))
    else checked all_alnum url id.
Proof.
  intros Hc Hg Hlast. unfold id_from_url. rewrite Hparts. cbn [bind].
  apply py_in_false in Hc, Hg. rewrite Hc, Hg. cbn [negb andb].
  unfold py_last. rewrite Hlast. cbn [bind].
  destruct (py_in "r" parts); reflexivity.
Qed.

(** Whatever is returned has passed the alphanumeric check. *)
Lemma id_from_url_isalnum (id : string) :
  id_from_url all_alnum _url_parts url = Return id -> str_isalnum all_alnum id = true.
Proof.
  unfold id_from_url. rewrite Hparts. cbn [bind].
  match goal with |- bind ?m _ = _ -> _ => destruct m as [sid|e] end;
    cbn [bind]; [|discriminate].
  destruct (str_isalnum all_alnum sid) eqn:Hs; cbn [negb]; [|discriminate].
  intros [= <-]. assumption.
Qed.

End IdFromUrlFacts.

(** Membership goals over lists of segments given by their elements. *)
Ltac segments :=
  repeat match goal with
         | H : _ ∉ _ :: _ |- _ => apply not_elem_of_cons in H as [? ?]
         end;
  rewrite ?not_elem_of_cons, ?elem_of_cons, ?elem_of_nil;
  intuition (congruence || discriminate).

Lemma last_after {A} (pre : list A) (x : A) (rest : list A) :
  last (pre ++ x :: rest) = last (x :: rest).
Proof.
  rewrite last_app. destruct (last (x :: rest)) eqn:E; [reflexivity|].
  rewrite last_cons in E. destruct (last rest); discriminate.
Qed.

Lemma accepted_shape_result (all_alnum : string -> bool)
    (_url_parts : string -> outcome (list string))
    (url : string) (parts : list string) (id : string) :
  _url_parts url = Return parts ->
  accepted_shape id parts ->
  id_from_url all_alnum _url_parts url = checked all_alnum url id.
Proof.
  intros Hparts Hshape. destruct Hshape as [Hid|rest Hg Hl|sub rest Hsub Hg Hl|rest].
  - rewrite (id_from_url_last _ _ _ _ Hparts id).
    + assert (Hr : py_in "r" [""; id] = false) by (apply py_in_false; segments).
      rewrite Hr. reflexivity.
    + segments.
    + segments.
    + reflexivity.
  - rewrite (id_from_url_comments _ _ _ _ Hparts [""] (id :: rest)).
    + rewrite decide_False; [reflexivity|].
      change ("" :: "comments" :: id :: rest) with ([""; "comments"] ++ id :: rest).
      rewrite last_after. assumption.
    + reflexivity.
    + segments.
    + segments.
  - rewrite (id_from_url_comments _ _ _ _ Hparts [""; "r"; sub] (id :: rest)).
    + rewrite decide_False; [reflexivity|].
      change ("" :: "r" :: sub :: "comments" :: id :: rest)
        with ([""; "r"; sub; "comments"] ++ id :: rest).
      rewrite last_after. assumption.
    + reflexivity.
    + segments.
    + segments.
  - rewrite (id_from_url_gallery _ _ _ _ Hparts [""] (id :: rest)).
    + reflexivity.
    + reflexivity.
    + segments.
Qed.

(** Where the function keeps the promise of its docstring.  Let the path of
    the URL have the segments [parts].  When [parts] has one of the four
    formats for [id] and no segment [gallery], [comments] or [r] stands where
    the function takes it for a marker, [id_from_url] returns [id] if it is
    alphanumeric and raises [InvalidURL] if it is not.  A path with a
    segment [r] and neither [comments] nor [gallery] raises [InvalidURL]; so
    does a path whose last segment is [comments] and that has no segment
    [gallery].  Whatever is returned is alphanumeric. *)
Theorem id_from_url_contract (all_alnum : string -> bool)
    (_url_parts : string -> outcome (list string))
    (url : string) (parts : list string) :
  _url_parts url = Return parts ->
  (forall id, accepted_shape id parts -> str_isalnum all_alnum id = true ->
     id_from_url all_alnum _url_parts url = Return id)
  /\ (forall id, accepted_shape id parts -> str_isalnum all_alnum id = false ->
        raises_InvalidURL (id_from_url all_alnum _url_parts url))
  /\ ("r" ∈ parts -> "comments" ∉ parts -> "gallery" ∉ parts ->
        raises_InvalidURL (id_from_url all_alnum _url_parts url))
  /\ (last parts = Some "comments" -> "gallery" ∉ parts ->
        raises_InvalidURL (id_from_url all_alnum _url_parts url))
  /\ (forall id, id_from_url all_alnum _url_parts url = Return id -> str_isalnum all_alnum id = true).
Proof.
  intros Hparts. repeat split.
  - intros id Hshape Hid.
    rewrite (accepted_shape_result _ _ _ _ _ Hparts Hshape).
    unfold checked. rewrite Hid. reflexivity.
  - intros id Hshape Hid.
    rewrite (accepted_shape_result _ _ _ _ _ Hparts Hshape).
    unfold checked. rewrite Hid. exact I.
  - intros Hr Hc Hg.
    destruct (last parts) as [id|] eqn:Hlast.
    + rewrite (id_from_url_last _ _ _ _ Hparts id Hc Hg Hlast).
      apply py_in_true in Hr. rewrite Hr. exact I.
    + apply last_None in Hlast. subst parts. apply elem_of_nil in Hr. contradiction.
  - intros Hlast Hg.
    assert (Hin : "comments" ∈ parts).
    { apply last_Some in Hlast as [l' ->]. apply elem_of_app. right. left. }
    apply list_elem_of_split_l in Hin as (pre & rest & Heq & Hpre).
    rewrite (id_from_url_comments _ _ _ _ Hparts pre rest Heq Hpre Hg).
    rewrite decide_True by assumption. exact I.
  - intros id. apply (id_from_url_isalnum _ _ _ _ Hparts).
Qed.

Lemma id_from_url_contract_witness :
  id_from_url ascii_alnum url_path_segments
    "https://www.reddit.com/r/redditdev/comments/2gmzqe/praw_https/"
  = Return "2gmzqe"
  /\ id_from_url ascii_alnum url_path_segments "https://redd.it/2gmzqe" = Return "2gmzqe"
  /\ id_from_url ascii_alnum url_path_segments "https://reddit.com/comments/2gmzqe/"
     = Return "2gmzqe"
  /\ id_from_url ascii_alnum url_path_segments "https://www.reddit.com/gallery/2gmzqe"
     = Return "2gmzqe"
  /\ raises_InvalidURL
       (id_from_url ascii_alnum url_path_segments "https://www.reddit.com/gallery/2gm_zqe")
  /\ raises_InvalidURL
       (id_from_url ascii_alnum url_path_segments "https://www.reddit.com/r/redditdev/")
  /\ raises_InvalidURL
       (id_from_url ascii_alnum url_path_segments "https://www.reddit.com/r/redditdev/comments/").
Proof.
  split; [|split; [|split; [|split; [|split; [|split]]]]].
  - pose proof (id_from_url_contract ascii_alnum url_path_segments
                  "https://www.reddit.com/r/redditdev/comments/2gmzqe/praw_https/"
                  [""; "r"; "redditdev"; "comments"; "2gmzqe"; "praw_https"]
                  eq_refl) as (Hid & _).
    refine (Hid "2gmzqe" _ eq_refl).
    apply shape_permalink; [compute_done | compute_done | simpl; congruence].
  - pose proof (id_from_url_contract ascii_alnum url_path_segments "https://redd.it/2gmzqe"
                  [""; "2gmzqe"] eq_refl) as (Hid & _).
    refine (Hid "2gmzqe" _ eq_refl).
    apply shape_shortlink. compute_done.
  - pose proof (id_from_url_contract ascii_alnum url_path_segments
                  "https://reddit.com/comments/2gmzqe/"
                  [""; "comments"; "2gmzqe"] eq_refl) as (Hid & _).
    refine (Hid "2gmzqe" _ eq_refl).
    apply shape_comments; [compute_done | simpl; congruence].
  - pose proof (id_from_url_contract ascii_alnum url_path_segments
                  "https://www.reddit.com/gallery/2gmzqe"
                  [""; "gallery"; "2gmzqe"] eq_refl) as (Hid & _).
    refine (Hid "2gmzqe" _ eq_refl).
    apply shape_gallery.
  - pose proof (id_from_url_contract ascii_alnum url_path_segments
                  "https://www.reddit.com/gallery/2gm_zqe"
                  [""; "gallery"; "2gm_zqe"] eq_refl) as (_ & Hbad & _).
    refine (Hbad "2gm_zqe" _ eq_refl).
    apply shape_gallery.
  - pose proof (id_from_url_contract ascii_alnum url_path_segments
                  "https://www.reddit.com/r/redditdev/"
                  [""; "r"; "redditdev"] eq_refl) as (_ & _ & Hsub & _).
    apply Hsub; compute_done.
  - pose proof (id_from_url_contract ascii_alnum url_path_segments
                  "https://www.reddit.com/r/redditdev/comments/"
                  [""; "r"; "redditdev"; "comments"] eq_refl)
      as (_ & _ & _ & Hend & _).
    apply Hend; [reflexivity | compute_done].
Defined.

(** C2.  The claim is the promise of the docstring, and the code breaks it.
    The permalink of a submission of the subreddit [gallery] has the third
    format of the docstring, whatever its identifier [id] and the segments
    after it.  The branch of the gallery format is tested before the
    branches of the comments formats, so that [id_from_url] takes the
    segment after [gallery], which is [comments], for the identifier, and
    returns it. *)
Theorem id_from_url_gallery_subreddit (all_alnum : string -> bool)
    (_url_parts : string -> outcome (list string))
    (url id : string) (rest : list string) :
  _url_parts url = Return ("" :: "r" :: "gallery" :: "comments" :: id :: rest) ->
  all_alnum "comments" = true ->
  docstring_shape id ("" :: "r" :: "gallery" :: "comments" :: id :: rest)
  /\ id_from_url all_alnum _url_parts url = Return "comments".
Proof.
  intros Hparts Halnum. split; [apply doc_permalink|].
  rewrite (id_from_url_gallery _ _ _ _ Hparts [""; "r"] ("comments" :: id :: rest)).
  - cbn [py_getitem]. unfold checked, str_isalnum. rewrite Halnum. reflexivity.
  - reflexivity.
  - segments.
Qed.

Lemma id_from_url_gallery_subreddit_witness :
  url_path_segments "https://www.reddit.com/r/gallery/comments/2gmzqe/praw_https/"
  = Return [""; "r"; "gallery"; "comments"; "2gmzqe"; "praw_https"]
  /\ str_isalnum ascii_alnum "2gmzqe" = true
  /\ docstring_shape "2gmzqe"
       [""; "r"; "gallery"; "comments"; "2gmzqe"; "praw_https"]
  /\ id_from_url ascii_alnum url_path_segments
       "https://www.reddit.com/r/gallery/comments/2gmzqe/praw_https/"
     = Return "comments".
Proof.
  split; [reflexivity | split; [reflexivity|]].
  exact (id_from_url_gallery_subreddit ascii_alnum url_path_segments
           "https://www.reddit.com/r/gallery/comments/2gmzqe/praw_https/"
           "2gmzqe" ["praw_https"] eq_refl eq_refl).
Defined.

(** The path [/gallery/comments] ends exactly at [comments] and has the
    gallery format for the identifier [comments]: [id_from_url] returns
    it. *)
Lemma id_from_url_gallery_comments :
  url_path_segments "https://www.reddit.com/gallery/comments"
  = Return [""; "gallery"; "comments"]
  /\ id_from_url ascii_alnum url_path_segments "https://www.reddit.com/gallery/comments"
     = Return "comments".
Proof. split; reflexivity. Qed.

(** C10, amended.  When [gallery] is the last segment of the path and occurs
    nowhere before, the lookup of the segment after it is out of range:
    [id_from_url] raises [IndexError], not [InvalidURL]. *)
Theorem id_from_url_gallery_last (all_alnum : string -> bool)
    (_url_parts : string -> outcome (list string))
    (url : string) (pre : list string) :
  _url_parts url = Return (pre ++ ["gallery"]) ->
  "gallery" ∉ pre ->
  id_from_url all_alnum _url_parts url = Raise IndexError
  /\ ~ raises_InvalidURL (id_from_url all_alnum _url_parts url).
Proof.
  intros Hparts Hpre.
  rewrite (id_from_url_gallery _ _ _ _ Hparts pre [] eq_refl Hpre).
  split; [reflexivity | intros H; exact H].
Qed.

Lemma id_from_url_gallery_last_witness :
  id_from_url ascii_alnum url_path_segments "https://www.reddit.com/gallery/" = Raise IndexError
  /\ ~ raises_InvalidURL
        (id_from_url ascii_alnum url_path_segments "https://www.reddit.com/gallery/").
Proof.
  apply (id_from_url_gallery_last ascii_alnum url_path_segments
           "https://www.reddit.com/gallery/" [""] eq_refl).
  compute_done.
Defined.

(** C10 as stated fails when [gallery] also occurs earlier in the path: the
    path [/gallery/a-b/gallery] ends at [gallery], the segment after the
    first [gallery] is [a-b], and [id_from_url] raises [InvalidURL]. *)
Lemma id_from_url_gallery_twice :
  url_path_segments "https://www.reddit.com/gallery/a-b/gallery"
  = Return [""; "gallery"; "a-b"; "gallery"]
  /\ last [""; "gallery"; "a-b"; "gallery"] = Some "gallery"
  /\ raises_InvalidURL
       (id_from_url ascii_alnum url_path_segments "https://www.reddit.com/gallery/a-b/gallery").
Proof. split; [reflexivity | split; [reflexivity | exact I]]. Qed.

(** ** The effect monad *)

Lemma mbind_Return {A B} (m : M A) (f : A -> M B) (w w' : world) (b : B) :
  mbind m f w = (Return b, w') ->
  exists a w1, m w = (Return a, w1) /\ f a w1 = (Return b, w').
Proof.
  unfold mbind. destruct (m w) as [[a|e] w1]; [eauto | discriminate].
Qed.

Lemma lift_Return {A} (r : outcome A) (w w' : world) (a : A) :
  lift r w = (Return a, w') -> r = Return a /\ w' = w.
Proof. unfold lift. intros [= -> ->]. split; reflexivity. Qed.

Lemma emit_nil (w : world) : emit [] w = w.
Proof. destruct w. unfold emit. simpl. rewrite app_nil_r. reflexivity. Qed.

Lemma emit_emit (ws1 ws2 : list string) (w : world) :
  emit ws2 (emit ws1 w) = emit (ws1 ++ ws2) w.
Proof. unfold emit. simpl. rewrite app_assoc. reflexivity. Qed.

Lemma offline_ret {A} (a : A) : offline (ret a).
Proof. exists (Return a), []. intros w. rewrite emit_nil. reflexivity. Qed.

Lemma offline_raise {A} (e : exn) : offline (@raise A e).
Proof. exists (Raise e), []. intros w. rewrite emit_nil. reflexivity. Qed.

Lemma offline_lift {A} (r : outcome A) : offline (lift r).
Proof. exists r, []. intros w. rewrite emit_nil. reflexivity. Qed.

Lemma offline_warn (message : string) : offline (warn message).
Proof. exists (Return tt), [message]. intros w. reflexivity. Qed.

Lemma offline_mbind {A B} (m : M A) (f : A -> M B) :
  offline m -> (forall a, offline (f a)) -> offline (mbind m f).
Proof.
  intros (r & ws & Hm) Hf. destruct r as [a|e].
  - destruct (Hf a) as (r' & ws' & Hfa).
    exists r', (ws ++ ws'). intros w. unfold mbind.
    rewrite Hm, Hfa, emit_emit. reflexivity.
  - exists (Raise e), ws. intros w. unfold mbind. rewrite Hm. reflexivity.
Qed.

Lemma offline_for_each {A S} (f : S -> A -> M S) (l : list A) :
  (forall s x, offline (f s x)) -> forall s, offline (for_each f l s).
Proof.
  intros Hf. induction l as [|x l IH]; intros s; simpl.
  - apply offline_ret.
  - apply offline_mbind; [apply Hf | apply IH].
Qed.

Lemma offline_requests {A} (m : M A) (w : world) :
  offline m -> requests (snd (m w)) = requests w.
Proof. intros (r & ws & Hm). rewrite Hm. reflexivity. Qed.

Lemma offline_result {A} (m : M A) (w w' : world) :
  offline m -> fst (m w) = fst (m w').
Proof. intros (r & ws & Hm). rewrite !Hm. reflexivity. Qed.

Ltac offline :=
  repeat first
    [ apply offline_ret | apply offline_raise | apply offline_lift
    | apply offline_warn
    | apply offline_mbind; [|intros ?]
    | match goal with
      | |- offline (if ?c then _ else _) => destruct c
      | |- offline (match ?x with _ => _ end) => destruct x
      end ].

(** ** Attribute assignment *)

Lemma offline__setattr__ (self : obj) (attribute : string) (v : value) :
  offline (__setattr__ self attribute v).
Proof. unfold __setattr__. offline. Qed.

Lemma offline_RedditBase__init__ (self : obj) (reddit : value)
    (_data : option (list (string * json))) :
  offline (RedditBase__init__ self reddit _data).
Proof.
  unfold RedditBase__init__.
  apply offline_mbind; [apply offline__setattr__ | intros s1].
  apply offline_mbind; [| intros s2; apply offline__setattr__].
  destruct _data as [[|item items]|]; try apply offline_ret.
  apply offline_for_each. intros s x. apply offline__setattr__.
Qed.

Lemma offline__init__ (all_alnum : string -> bool)
    (_url_parts : string -> outcome (list string))
    (reddit : value) (id url : option string)
    (_data : option (list (string * json))) :
  offline (__init__ all_alnum _url_parts reddit id url _data).
Proof.
  unfold __init__.
  destruct (negb _); [apply offline_raise|].
  apply offline_mbind; [apply offline__setattr__ | intros s1].
  apply offline_mbind; [apply offline__setattr__ | intros s2].
  apply offline_mbind.
  { destruct id as [[|c i]|], url as [[|c' u]|];
      try apply offline_ret; try apply offline__setattr__;
      (apply offline_mbind; [apply offline_lift | intros; apply offline__setattr__]). }
  intros s3.
  apply offline_mbind; [apply offline_RedditBase__init__ | intros s4].
  apply offline_mbind; [apply offline__setattr__ | intros s5].
  apply offline__setattr__.
Qed.

Lemma object__setattr___field (self : obj) (attribute : string) (v : value) :
  attribute ∉ read_only_properties ->
  object__setattr__ self attribute v = Return (<[attribute := v]> self).
Proof.
  intros H. unfold object__setattr__.
  apply py_in_false in H. rewrite H. reflexivity.
Qed.

Lemma object__setattr___Return (self self' : obj) (attribute : string) (v : value) :
  object__setattr__ self attribute v = Return self' ->
  self' = <[attribute := v]> self.
Proof.
  unfold object__setattr__. destruct (py_in _ _); [discriminate|].
  intros [= <-]. reflexivity.
Qed.

(** An attribute that the hook does not single out goes to
    [object.__setattr__] as it is. *)
Lemma __setattr___other (self : obj) (attribute : string) (v : value) (w : world) :
  attribute ∉ "comment_sort" :: normalized_fields ->
  __setattr__ self attribute v w = (object__setattr__ self attribute v, w).
Proof.
  intros H. unfold __setattr__, normalized_fields in *.
  repeat (apply not_elem_of_cons in H as [? H]).
  rewrite !decide_False by assumption.
  unfold mbind, ret, lift. reflexivity.
Qed.

(** The three normalized fields: the stored value is the typed object built
    from [self._reddit] and the assigned value. *)
Lemma __setattr___normalized (self : obj) (attribute : string)
    (reddit raw : value) (w : world) :
  self !! "_reddit" = Some reddit ->
  attribute ∈ normalized_fields ->
  __setattr__ self attribute raw w
  = (Return (<[attribute := typed_object attribute reddit raw]> self), w).
Proof.
  intros Hr Hin. unfold normalized_fields in Hin.
  unfold __setattr__, getattr, typed_object, Redditor_from_data. rewrite Hr.
  rewrite !elem_of_cons, elem_of_nil in Hin.
  destruct Hin as [->|[->|[->|[]]]]; reflexivity.
Qed.

Lemma __setattr___comment_sort (self : obj) (v : value) (w : world) :
  __setattr__ self "comment_sort" v w
  = match warn_condition self with
    | Return true =>
        (Return (<["comment_sort" := v]> self), emit [comment_sort_warning] w)
    | Return false => (Return (<["comment_sort" := v]> self), w)
    | Raise e => (Raise e, w)
    end.
Proof.
  unfold __setattr__. cbn [decide].
  rewrite !decide_False by discriminate. rewrite decide_True by reflexivity.
  unfold mbind, lift.
  destruct (warn_condition self) as [[|]|e]; reflexivity.
Qed.

Lemma warn_condition_fetched (self : obj) (fetched : value) (config : Config) :
  self !! "_fetched" = Some fetched ->
  truthy fetched = true ->
  self !! "_reddit" = Some (VReddit config) ->
  warn_condition self = Return (warn_comment_sort config).
Proof.
  intros Hf Ht Hr. unfold warn_condition, hasattr, getattr.
  rewrite Hf, Hr. rewrite !bool_decide_eq_true_2 by eauto.
  cbn [negb bind]. rewrite Ht. reflexivity.
Qed.

Lemma warn_condition_Reddit (self : obj) (config : Config) :
  self !! "_reddit" = Some (VReddit config) ->
  exists b, warn_condition self = Return b.
Proof.
  intros Hr. unfold warn_condition, hasattr, getattr. rewrite Hr.
  destruct (self !! "_fetched") as [f|] eqn:Hf.
  - rewrite !bool_decide_eq_true_2 by eauto. cbn [negb bind].
    destruct (truthy f); cbn [negb]; eauto.
  - rewrite bool_decide_eq_false_2 by (intros [? ?]; discriminate).
    cbn [negb]. eauto.
Qed.

(** What a successful assignment has done to the instance. *)
Lemma __setattr___Return (self self' : obj) (attribute : string) (v : value)
    (w w' : world) :
  __setattr__ self attribute v w = (Return self', w') ->
  exists v',
    self' = <[attribute := v']> self
    /\ (attribute ∉ normalized_fields -> v' = v)
    /\ (attribute ∈ normalized_fields ->
        exists reddit, self !! "_reddit" = Some reddit
                       /\ v' = typed_object attribute reddit v).
Proof.
  intros H.
  destruct (decide (attribute ∈ normalized_fields)) as [Hin|Hnin].
  - destruct (self !! "_reddit") as [reddit|] eqn:Hr.
    + rewrite (__setattr___normalized _ _ _ _ _ Hr Hin) in H.
      injection H as <- <-. eexists. split; [reflexivity|]. split; [tauto|eauto].
    + exfalso. unfold normalized_fields in Hin.
      rewrite !elem_of_cons, elem_of_nil in Hin.
      unfold __setattr__, getattr in H. rewrite Hr in H.
      destruct Hin as [->|[->|[->|[]]]]; discriminate.
  - exists v. split; [|split; [reflexivity | tauto]].
    destruct (decide (attribute = "comment_sort")) as [->|Hcs].
    + rewrite __setattr___comment_sort in H.
      destruct (warn_condition self) as [[|]|e];
        [injection H as <- _ | injection H as <- _ | discriminate]; reflexivity.
    + rewrite __setattr___other in H.
      * injection H as H _. apply object__setattr___Return. assumption.
      * apply not_elem_of_cons. split; assumption.
Qed.

(** On a fetched submission of a [Reddit] instance, an assignment to
    [comment_limit] is stored without any warning. *)
Lemma __setattr___comment_limit (self : obj) (v : value) (w : world) :
  __setattr__ self "comment_limit" v w
  = (Return (<["comment_limit" := v]> self), w).
Proof. rewrite __setattr___other by compute_done. reflexivity. Qed.

(** C3, amended.  On a submission whose [_fetched] flag is true, an
    assignment to [comment_sort] or to [comment_limit] does not raise and
    stores the assigned value.  The assignment to [comment_sort] emits the
    warning when the setting [warn_comment_sort] of the configuration is on
    and emits nothing when it is off; the assignment to [comment_limit]
    emits nothing. *)
Theorem ordering_assignment_after_fetch (self : obj) (fetched : value)
    (config : Config) (v : value) (w : world) :
  self !! "_fetched" = Some fetched ->
  truthy fetched = true ->
  self !! "_reddit" = Some (VReddit config) ->
  __setattr__ self "comment_sort" v w
  = (Return (<["comment_sort" := v]> self),
     if warn_comment_sort config then emit [comment_sort_warning] w else w)
  /\ __setattr__ self "comment_limit" v w
     = (Return (<["comment_limit" := v]> self), w).
Proof.
  intros Hf Ht Hr. split.
  - rewrite __setattr___comment_sort.
    rewrite (warn_condition_fetched _ _ _ Hf Ht Hr).
    destruct (warn_comment_sort config); reflexivity.
  - apply __setattr___comment_limit.
Qed.

Lemma ordering_assignment_after_fetch_witness :
  __setattr__ fetched_submission "comment_sort" (VStr "new") empty_world
  = (Return (<["comment_sort" := VStr "new"]> fetched_submission),
     emit [comment_sort_warning] empty_world)
  /\ __setattr__ fetched_submission "comment_limit" (VInt 10) empty_world
     = (Return (<["comment_limit" := VInt 10]> fetched_submission), empty_world).
Proof.
  pose proof (ordering_assignment_after_fetch fetched_submission (VBool true)
                example_config (VStr "new") empty_world
                eq_refl eq_refl eq_refl) as [Hsort _].
  pose proof (ordering_assignment_after_fetch fetched_submission (VBool true)
                example_config (VInt 10) empty_world
                eq_refl eq_refl eq_refl) as [_ Hlimit].
  split; [exact Hsort | exact Hlimit].
Defined.

(** C3 as stated fails for [comment_limit]: on a fetched submission the
    assignment is applied and no warning is emitted. *)
Lemma comment_limit_assigned_silently :
  fetched_submission !! "_fetched" = Some (VBool true)
  /\ ~ ordering_assignment_contract fetched_submission "comment_limit"
         (VInt 10) empty_world.
Proof.
  split; [reflexivity|].
  intros (self' & w' & H & _ & Hw).
  rewrite __setattr___comment_limit in H. injection H as _ <-.
  apply Hw. reflexivity.
Qed.

(** ** Construction *)

Lemma warn_condition_unfetched (self : obj) :
  self !! "_fetched" = None -> warn_condition self = Return false.
Proof.
  intros Hf. unfold warn_condition, hasattr.
  rewrite bool_decide_eq_false_2; [reflexivity|].
  rewrite Hf. intros [? ?]; discriminate.
Qed.













(** ** Moderation *)

Section ModerationFacts.

Variable API_PATH : string -> option string.
Variable fullname : obj -> outcome string.
Variable transport : list request -> request -> outcome json.

(** [sticky] on a submission of a [Reddit] instance: the request is issued,
    and the answer of the transport decides the result. *)
Lemma sticky_result (thing : obj) (bottom state : bool) (w : world)
    (fn url : string) (config : Config) :
  fullname thing = Return fn ->
  thing !! "_reddit" = Some (VReddit config) ->
  API_PATH "sticky_submission" = Some url ->
  sticky API_PATH fullname transport thing bottom state w
  = (match transport (requests w) (sticky_request url fn bottom state) with
     | Return response => Return (VJson response)
     | Raise Conflict => Return VNone
     | Raise e => Raise e
     end,
     {| requests := requests w ++ [sticky_request url fn bottom state];
        warnings := warnings w |}).
Proof.
  intros Hfn Hr Hurl.
  unfold sticky, mbind at 1, lift at 1. rewrite Hfn.
  unfold except_Conflict_pass, mbind, lift, getattr, API_PATH_get, Reddit_call.
  rewrite Hr, Hurl. cbn [Reddit_method].
  destruct (transport _ _) as [response|[]]; reflexivity.
Qed.

(** C8.  When the transport answers the request of [sticky] with an error,
    a [Conflict] is suppressed and the call returns [None]; any other error
    is raised to the caller as it is. *)
Theorem sticky_suppresses_Conflict (thing : obj) (bottom state : bool)
    (w : world) (fn url : string) (config : Config) (e : exn) :
  fullname thing = Return fn ->
  thing !! "_reddit" = Some (VReddit config) ->
  API_PATH "sticky_submission" = Some url ->
  transport (requests w) (sticky_request url fn bottom state) = Raise e ->
  fst (sticky API_PATH fullname transport thing bottom state w)
  = if decide (e = Conflict) then Return VNone else Raise e.
Proof.
  intros Hfn Hr Hurl He.
  rewrite (sticky_result _ _ _ _ _ _ _ Hfn Hr Hurl), He. cbn [fst].
  destruct e; reflexivity.
Qed.

(** [send_removal_message] on a submission of a [Reddit] instance, for a
    class that names its endpoint. *)
Lemma send_removal_message_result (self : moderation) (api : string)
    (message title type : string) (w : world) (fn url : string)
    (config : Config) :
  REMOVAL_MESSAGE_API self = Some api ->
  API_PATH api = Some url ->
  fullname (thing self) = Return fn ->
  thing self !! "_reddit" = Some (VReddit config) ->
  send_removal_message API_PATH fullname transport self message title type w
  = (match transport (requests w)
             (removal_message_request url fn message title type) with
     | Return response =>
         Return (if truthy (VJson response) then VJson response else VNone)
     | Raise e => Raise e
     end,
     {| requests := requests w ++ [removal_message_request url fn message title type];
        warnings := warnings w |}).
Proof.
  intros Hapi Hurl Hfn Hr.
  unfold send_removal_message. rewrite Hapi.
  unfold mbind, lift, getattr, API_PATH_get, Reddit_call.
  rewrite Hurl, Hfn, Hr.
  destruct (transport _ _) as [response|e]; reflexivity.
Qed.

(** C9.  On a moderation object whose class leaves [REMOVAL_MESSAGE_API]
    unset, [send_removal_message] raises [NotImplementedError] and issues no
    request.  On the moderation object of a submission it issues one
    request: a POST to the entry [removal_link_message] of [API_PATH], with
    the fullname of the submission, the message, the title and the type
    under the key [json]. *)
Theorem send_removal_message_endpoint (submission : obj)
    (message title type : string) (w : world) :
  (forall self, REMOVAL_MESSAGE_API self = None ->
     send_removal_message API_PATH fullname transport self message title type w
     = (Raise (NotImplementedError "ThingModerationMixin must be extended."), w))
  /\ (forall fn url config,
        API_PATH "removal_link_message" = Some url ->
        fullname submission = Return fn ->
        submission !! "_reddit" = Some (VReddit config) ->
        requests (snd (send_removal_message API_PATH fullname transport
                         (SubmissionModeration submission) message title type w))
        = requests w
          ++ [{| method := "POST"; path := (url, []); params := [];
                 data := [("json",
                           VJson (JDict [("item_id", JList [JStr fn]);
                                         ("message", JStr message);
                                         ("title", JStr title);
                                         ("type", JStr type)]))] |}]).
Proof.
  split.
  - intros self Hapi. unfold send_removal_message. rewrite Hapi. reflexivity.
  - intros fn url config Hurl Hfn Hr.
    rewrite (send_removal_message_result (SubmissionModeration submission)
               "removal_link_message" message title type w fn url config
               eq_refl Hurl Hfn Hr).
    reflexivity.
Qed.

End ModerationFacts.

Lemma sticky_suppresses_Conflict_witness :
  fst (sticky example_API_PATH kind_prefixed_fullname (failing_transport Conflict)
         example_submission true true empty_world)
  = (if decide (Conflict = Conflict) then Return VNone else Raise Conflict)
  /\ fst (sticky example_API_PATH kind_prefixed_fullname
            (failing_transport (TransportError "Forbidden"))
            example_submission true true empty_world)
     = (if decide (TransportError "Forbidden" = Conflict) then Return VNone
        else Raise (TransportError "Forbidden")).
Proof.
  split.
  - exact (sticky_suppresses_Conflict example_API_PATH kind_prefixed_fullname
             (failing_transport Conflict) example_submission true true
             empty_world "t3_2gmzqe" "api/set_subreddit_sticky/" example_config
             Conflict eq_refl eq_refl eq_refl eq_refl).
  - exact (sticky_suppresses_Conflict example_API_PATH kind_prefixed_fullname
             (failing_transport (TransportError "Forbidden")) example_submission
             true true empty_world "t3_2gmzqe" "api/set_subreddit_sticky/"
             example_config (TransportError "Forbidden")
             eq_refl eq_refl eq_refl eq_refl).
Defined.

Lemma send_removal_message_endpoint_witness :
  send_removal_message example_API_PATH kind_prefixed_fullname steady_transport
    (ThingModerationMixin example_submission) "removed" "ignored" "public"
    empty_world
  = (Raise (NotImplementedError "ThingModerationMixin must be extended."),
     empty_world)
  /\ requests (snd (send_removal_message example_API_PATH kind_prefixed_fullname
                      steady_transport (SubmissionModeration example_submission)
                      "removed" "ignored" "public" empty_world))
     = requests empty_world
       ++ [{| method := "POST";
              path := ("api/v1/modactions/removal_link_message", []);
              params := [];
              data := [("json",
                        VJson (JDict [("item_id", JList [JStr "t3_2gmzqe"]);
                                      ("message", JStr "removed");
                                      ("title", JStr "ignored");
                                      ("type", JStr "public")]))] |}].
Proof.
  pose proof (send_removal_message_endpoint example_API_PATH
                kind_prefixed_fullname steady_transport example_submission
                "removed" "ignored" "public" empty_world) as (Hnone & Hsome).
  split.
  - exact (Hnone (ThingModerationMixin example_submission) eq_refl).
  - exact (Hsome "t3_2gmzqe" "api/v1/modactions/removal_link_message"
             example_config eq_refl eq_refl eq_refl).
Defined.

(** ** Hydration *)

Lemma __setattr___other_Return (self self' : obj) (attribute : string)
    (v : value) (w w' : world) :
  attribute ∉ "comment_sort" :: normalized_fields ->
  __setattr__ self attribute v w = (Return self', w') ->
  self' = <[attribute := v]> self /\ w' = w.
Proof.
  intros Hattr H. rewrite __setattr___other in H by assumption.
  injection H as H <-. split; [|reflexivity].
  apply object__setattr___Return. assumption.
Qed.

(** The fields of a record that [assign_item] leaves alone. *)
Lemma assign_items_other (fields : list (string * json)) :
  forall (s s' : obj) (w w' : world) (k : string),
    for_each assign_item fields s w = (Return s', w') ->
    k ∉ fields.*1 ->
    s' !! k = s !! k.
Proof.
  induction fields as [|[k0 j0] fields IH]; intros s s' w w' k H Hk.
  - injection H as <- _. reflexivity.
  - cbn [for_each] in H. apply mbind_Return in H as (s1 & w1 & Hset & H).
    cbn [fmap list_fmap fst] in Hk. apply not_elem_of_cons in Hk as [Hne Hk].
    rewrite (IH _ _ _ _ _ H Hk).
    apply __setattr___Return in Hset as (v' & -> & _).
    apply lookup_insert_ne. cbn [fst]. congruence.
Qed.

(** A normalized field of a record is stored as the typed object of its
    raw value, built from the [_reddit] attribute of that moment. *)
Lemma assign_items_normalized (fields : list (string * json)) :
  forall (s s' : obj) (w w' : world) (k : string) (raw : json),
    for_each assign_item fields s w = (Return s', w') ->
    NoDup fields.*1 ->
    (k, raw) ∈ fields ->
    k ∈ normalized_fields ->
    exists reddit,
      s' !! k = Some (typed_object k reddit (VJson raw))
      /\ ("_reddit" ∉ fields.*1 -> s !! "_reddit" = Some reddit).
Proof.
  induction fields as [|[k0 j0] fields IH]; intros s s' w w' k raw H Hnd Hin Hk.
  - apply elem_of_nil in Hin. contradiction.
  - cbn [for_each] in H. apply mbind_Return in H as (s1 & w1 & Hset & H).
    cbn [fmap list_fmap fst] in Hnd. apply NoDup_cons in Hnd as [Hk0 Hnd].
    apply elem_of_cons in Hin as [[= -> ->]|Hin].
    + apply __setattr___Return in Hset as (v' & -> & _ & Hv'). cbn [fst snd] in *.
      destruct (Hv' Hk) as (reddit & Hr & ->).
      exists reddit. split.
      * rewrite (assign_items_other _ _ _ _ _ _ H Hk0).
        apply lookup_insert_eq.
      * intros _. assumption.
    + destruct (IH _ _ _ _ _ _ H Hnd Hin Hk) as (reddit & Hs' & Hr).
      exists reddit. split; [assumption|].
      intros Hnr. cbn [fmap list_fmap fst] in Hnr.
      apply not_elem_of_cons in Hnr as [Hne Hnr].
      apply __setattr___Return in Hset as (v' & -> & _).
      rewrite <- (Hr Hnr). symmetry. apply lookup_insert_ne. cbn [fst]. congruence.
Qed.

(** The [_reddit] attribute after the items of a record: the one before, or
    a raw value of the record. *)
Lemma assign_items_reddit (fields : list (string * json)) :
  forall (s s' : obj) (w w' : world) (reddit : value),
    for_each assign_item fields s w = (Return s', w') ->
    s !! "_reddit" = Some reddit ->
    s' !! "_reddit" = Some reddit \/ exists j, s' !! "_reddit" = Some (VJson j).
Proof.
  induction fields as [|[k0 j0] fields IH]; intros s s' w w' reddit H Hr.
  - injection H as <- _. left. assumption.
  - cbn [for_each] in H. apply mbind_Return in H as (s1 & w1 & Hset & H).
    apply __setattr___Return in Hset as (v' & -> & Hv' & _). cbn [fst snd] in *.
    destruct (decide (k0 = "_reddit")) as [->|Hne].
    + rewrite Hv' in H by compute_done.
      destruct (IH _ _ _ _ (VJson j0) H) as [Hs'|Hs'].
      * apply lookup_insert_eq.
      * right. eauto.
      * right. assumption.
    + apply (IH _ _ _ _ reddit H).
      rewrite lookup_insert_ne by assumption. assumption.
Qed.

Section FetchFacts.

Variable all_alnum : string -> bool.
Variable _url_parts : string -> outcome (list string).
Variable API_PATH : string -> option string.
Variable transport : list request -> request -> outcome json.

(** The constructor on a record: the base instance, the items of the
    record, and the three attributes that follow them. *)
Lemma __init___record_Return (reddit : value)
    (record : option (list (string * json))) (w w' : world) (T : obj) :
  __init__ all_alnum _url_parts reddit None None record w = (Return T, w') ->
  exists fields S w1,
    record = Some fields
    /\ for_each assign_item fields (<["_reddit" := reddit]> blank_submission) w
       = (Return S, w1)
    /\ T = <["comments" := VCommentForest []]>
           (<["_comments_by_id" := VJson (JDict [])]>
           (<["_fetched" := VBool false]> S)).
Proof.
  unfold __init__. destruct record as [fields|]; [|discriminate].
  cbn [count_None Nat.add Nat.eqb negb]. intros H.
  apply mbind_Return in H as (s1 & w1 & H1 & H).
  apply __setattr___other_Return in H1 as [-> ->]; [|compute_done].
  apply mbind_Return in H as (s2 & w2 & H2 & H).
  rewrite __setattr___comment_sort, warn_condition_unfetched in H2 by reflexivity.
  injection H2 as <- <-.
  apply mbind_Return in H as (s3 & w3 & H3 & H).
  injection H3 as <- <-.
  apply mbind_Return in H as (s4 & w4 & H4 & H).
  apply mbind_Return in H as (s5 & w5 & H5 & H).
  apply __setattr___other_Return in H5 as [-> ->]; [|compute_done].
  apply __setattr___other_Return in H as [-> ->]; [|compute_done].
  unfold RedditBase__init__ in H4.
  apply mbind_Return in H4 as (r1 & v1 & Hr1 & H4).
  apply __setattr___other_Return in Hr1 as [-> ->]; [|compute_done].
  apply mbind_Return in H4 as (S & v2 & HS & H4).
  apply __setattr___other_Return in H4 as [-> ->]; [|compute_done].
  exists fields, S, v2. split; [reflexivity|]. split; [|reflexivity].
  destruct fields as [|item items]; [|exact HS].
  injection HS as <- <-. reflexivity.
Qed.

(** A retrieval that returns was made through a [Reddit] instance. *)
Lemma _fetch_data_Return (self : obj) (w w' : world) (response : json) :
  _fetch_data API_PATH transport self w = (Return response, w') ->
  exists config, self !! "_reddit" = Some (VReddit config).
Proof.
  unfold _fetch_data. intros H.
  apply mbind_Return in H as ([[name fields] params] & w1 & _ & H).
  apply mbind_Return in H as (template & w2 & _ & H).
  apply mbind_Return in H as (reddit & w3 & Hr & H).
  apply lift_Return in Hr as [Hr _].
  unfold getattr in Hr. destruct (self !! "_reddit") as [r|]; [|discriminate].
  injection Hr as ->.
  destruct reddit; try discriminate. eauto.
Qed.

(** What a successful merge leaves: the hydrated instance, from a transient
    instance built of the record of the response. *)
Lemma merge_response_Return (self self' : obj) (response : json) (w w' : world) :
  merge_response all_alnum _url_parts self response w = (Return self', w') ->
  exists sl cl reddit sdata record T children,
    unpack_pair response = Return (sl, cl)
    /\ self !! "_reddit" = Some reddit
    /\ submission_data_of sl = Return sdata
    /\ as_record sdata = Return record
    /\ __init__ all_alnum _url_parts reddit None None record w = (Return T, w')
    /\ (let* d := json_getkey cl "data" in
        let* l := Listing d in Listing_children l) = Return children
    /\ self' = hydrated T self children.
Proof.
  unfold merge_response. intros H.
  apply mbind_Return in H as ([sl cl] & w1 & Hu & H).
  apply lift_Return in Hu as [Hu ->].
  apply mbind_Return in H as (reddit & w1 & Hr & H).
  apply lift_Return in Hr as [Hr ->].
  apply mbind_Return in H as (cdata & w1 & Hc & H).
  apply lift_Return in Hc as [Hc ->].
  apply mbind_Return in H as (listing & w1 & Hl & H).
  apply lift_Return in Hl as [Hl ->].
  apply mbind_Return in H as (sdata & w1 & Hs & H).
  apply lift_Return in Hs as [Hs ->].
  apply mbind_Return in H as (record & w1 & Hrec & H).
  apply lift_Return in Hrec as [Hrec ->].
  apply mbind_Return in H as (T & w1 & HT & H).
  apply mbind_Return in H as (T1 & w2 & Hd1 & H).
  apply lift_Return in Hd1 as [Hd1 ->].
  apply mbind_Return in H as (T2 & w2 & Hd2 & H).
  apply lift_Return in Hd2 as [Hd2 ->].
  apply mbind_Return in H as (T3 & w2 & Hc3 & H).
  apply __setattr___other_Return in Hc3 as [-> ->]; [|compute_done].
  apply mbind_Return in H as (s1 & w2 & Hf & H).
  apply __setattr___other_Return in Hf as [-> ->]; [|compute_done].
  apply mbind_Return in H as (comments & w2 & Hg & H).
  apply lift_Return in Hg as [Hg ->].
  apply mbind_Return in H as (children & w2 & Hch & H).
  apply lift_Return in Hch as [Hch ->].
  apply mbind_Return in H as (forest & w2 & Hup & H).
  apply lift_Return in Hup as [Hup ->].
  injection H as <- <-.
  exists sl, cl, reddit, sdata, record, T, children.
  unfold getattr in Hr. destruct (self !! "_reddit") as [r|] eqn:Hself; [|discriminate].
  injection Hr as ->.
  repeat (split; [first [assumption | reflexivity]|]).
  split.
  { rewrite Hc. cbn [bind]. rewrite Hl. cbn [bind]. assumption. }
  unfold delattr in Hd1, Hd2.
  destruct (T !! "comment_limit"); [|discriminate]. injection Hd1 as <-.
  destruct (delete "comment_limit" T !! "comment_sort"); [|discriminate].
  injection Hd2 as <-.
  unfold getattr in Hg.
  rewrite lookup_insert_ne, lookup_union_l', lookup_insert_eq in Hg
    by (try discriminate; rewrite lookup_insert_eq; eauto).
  injection Hg as <-. injection Hup as <-.
  reflexivity.
Qed.

Lemma _fetch_Return (self self' : obj) (w w' : world) :
  _fetch all_alnum _url_parts API_PATH transport self w = (Return self', w') ->
  exists response w1,
    _fetch_data API_PATH transport self w = (Return response, w1)
    /\ merge_response all_alnum _url_parts self response w1 = (Return self', w').
Proof. unfold _fetch. apply mbind_Return. Qed.


Lemma hydrated_idempotent (T self : obj) (children : list json) :
  hydrated T (hydrated T self children) children = hydrated T self children.
Proof.
  unfold hydrated, CommentForest. apply map_eq. intros k.
  destruct (decide (k = "comments")) as [->|Hc].
  { rewrite !lookup_insert_eq. reflexivity. }
  rewrite !(lookup_insert_ne _ "comments" k) by congruence.
  destruct (decide (k = "_fetched")) as [->|Hf].
  { rewrite !lookup_insert_eq. reflexivity. }
  rewrite !(lookup_insert_ne _ "_fetched" k) by congruence.
  rewrite !lookup_union.
  rewrite !(lookup_insert_ne _ "comments" k) by congruence.
  rewrite !(lookup_insert_ne _ "_fetched" k) by congruence.
  rewrite !lookup_union.
  rewrite !(lookup_insert_ne _ "comments" k) by congruence.
  destruct (delete "comment_sort" (delete "comment_limit" T) !! k),
    (self !! k); reflexivity.
Qed.

(** A field of the transient instance that the merge carries over. *)
Lemma hydrated_field (T self : obj) (children : list json) (k : string) (v : value) :
  k ∉ ["comments"; "_fetched"; "comment_sort"; "comment_limit"] ->
  T !! k = Some v ->
  hydrated T self children !! k = Some v.
Proof.
  intros Hk HT. repeat (apply not_elem_of_cons in Hk as [? Hk]).
  unfold hydrated. rewrite !lookup_insert_ne by congruence.
  apply lookup_union_Some_l.
  rewrite lookup_insert_ne, !lookup_delete_ne by congruence. assumption.
Qed.


(** C7.  When [_fetch] completes twice in a row and the transport gave the
    same response to both retrievals, the instance after the second call is
    the instance after the first. *)
Theorem _fetch_idempotent (self s1 s2 : obj) (w w1 w2 : world) :
  _fetch all_alnum _url_parts API_PATH transport self w = (Return s1, w1) ->
  _fetch all_alnum _url_parts API_PATH transport s1 w1 = (Return s2, w2) ->
  fst (_fetch_data API_PATH transport s1 w1)
  = fst (_fetch_data API_PATH transport self w) ->
  s2 = s1.
Proof.
  intros H1 H2 Hsame.
  apply _fetch_Return in H1 as (response & v1 & Hd1 & H1).
  apply _fetch_Return in H2 as (response' & v2 & Hd2 & H2).
  rewrite Hd1, Hd2 in Hsame. injection Hsame as ->.
  destruct (_fetch_data_Return _ _ _ _ Hd2) as (config & Hconfig).
  apply merge_response_Return in H1
    as (sl & cl & reddit & sdata & record & T & children
        & Hu & Hr & Hs & Hrec & HT & Hch & ->).
  apply merge_response_Return in H2
    as (sl' & cl' & reddit' & sdata' & record' & T' & children'
        & Hu' & Hr' & Hs' & Hrec' & HT' & Hch' & ->).
  rewrite Hu in Hu'. injection Hu' as <- <-.
  rewrite Hs in Hs'. injection Hs' as <-.
  rewrite Hrec in Hrec'. injection Hrec' as <-.
  rewrite Hch in Hch'. injection Hch' as <-.
  assert (Hreddit : reddit' = reddit).
  { destruct (__init___record_Return _ _ _ _ _ HT)
      as (fields & S & v3 & _ & HS & HTeq).
    assert (HTr : T !! "_reddit" = S !! "_reddit").
    { rewrite HTeq, !lookup_insert_ne by discriminate. reflexivity. }
    assert (Hbase : <["_reddit" := reddit]> blank_submission !! "_reddit"
                    = Some reddit) by apply lookup_insert_eq.
    destruct (assign_items_reddit _ _ _ _ _ reddit HS Hbase) as [HSr|[j HSr]];
      rewrite HSr in HTr;
      rewrite (hydrated_field T self children "_reddit" _
                 ltac:(compute_done) HTr) in Hr', Hconfig.
    - congruence.
    - discriminate. }
  subst reddit'.
  assert (HTT : T' = T).
  { pose proof (offline_result _ v1 v2 (offline__init__ all_alnum _url_parts reddit None None record)) as E.
    rewrite HT, HT' in E. injection E as <-. reflexivity. }
  subst T'. apply hydrated_idempotent.
Qed.

(** The normalized fields of the record of a response, after [_fetch]. *)
Lemma _fetch_normalized (self self' : obj) (w w' : world) (response sl cl : json)
    (fields : list (string * json)) (attribute : string) (raw : json) :
  _fetch all_alnum _url_parts API_PATH transport self w = (Return self', w') ->
  fst (_fetch_data API_PATH transport self w) = Return response ->
  unpack_pair response = Return (sl, cl) ->
  submission_data_of sl = Return (JDict fields) ->
  NoDup fields.*1 ->
  (attribute, raw) ∈ fields ->
  attribute ∈ normalized_fields ->
  exists reddit,
    self' !! attribute = Some (typed_object attribute reddit (VJson raw))
    /\ ("_reddit" ∉ fields.*1 -> self !! "_reddit" = Some reddit).
Proof.
  intros H Hresp Hu Hs Hnd Hin Hattr.
  apply _fetch_Return in H as (response' & w1 & Hd & H).
  rewrite Hd in Hresp. injection Hresp as ->.
  apply merge_response_Return in H
    as (sl' & cl' & reddit & sdata & record & T & children
        & Hu' & Hr & Hs' & Hrec & HT & _ & ->).
  rewrite Hu in Hu'. injection Hu' as <- <-.
  rewrite Hs in Hs'. injection Hs' as <-.
  injection Hrec as <-.
  destruct (__init___record_Return _ _ _ _ _ HT)
    as (fields' & S & w2 & [= <-] & HS & ->).
  destruct (assign_items_normalized _ _ _ _ _ _ _ HS Hnd Hin Hattr)
    as (reddit' & HSa & Hreddit).
  exists reddit'. split.
  - unfold normalized_fields in Hattr.
    rewrite !elem_of_cons, elem_of_nil in Hattr.
    apply hydrated_field.
    + destruct Hattr as [->|[->|[->|[]]]]; compute_done.
    + rewrite !lookup_insert_ne
        by (destruct Hattr as [->|[->|[->|[]]]]; discriminate).
      assumption.
  - intros Hnr. rewrite Hr. rewrite <- (Hreddit Hnr).
    symmetry. apply lookup_insert_eq.
Qed.

(** C5.  On a submission of a [Reddit] instance, an assignment to [author],
    [subreddit] or [poll_data] stores the typed object built from the
    assigned value, and an assignment to any other field stores the value as
    it is.  After [_fetch], each of the three fields that the record of the
    response carries holds the typed object built from its raw value: the
    same object as a direct assignment stores, when the record does not
    redefine [_reddit]. *)
Theorem __setattr___normalizes (self : obj) (config : Config) :
  self !! "_reddit" = Some (VReddit config) ->
  (forall attribute raw w,
     attribute ∈ normalized_fields ->
     __setattr__ self attribute raw w
     = (Return (<[attribute := typed_object attribute (VReddit config) raw]> self), w))
  /\ (forall attribute v w,
        attribute ∉ normalized_fields ->
        attribute ∉ read_only_properties ->
        exists w', __setattr__ self attribute v w
                   = (Return (<[attribute := v]> self), w'))
  /\ (forall self' w w' response sl cl fields attribute raw,
        _fetch all_alnum _url_parts API_PATH transport self w = (Return self', w') ->
        fst (_fetch_data API_PATH transport self w) = Return response ->
        unpack_pair response = Return (sl, cl) ->
        submission_data_of sl = Return (JDict fields) ->
        NoDup fields.*1 ->
        (attribute, raw) ∈ fields ->
        attribute ∈ normalized_fields ->
        exists reddit,
          self' !! attribute = Some (typed_object attribute reddit (VJson raw))
          /\ ("_reddit" ∉ fields.*1 -> reddit = VReddit config)).
Proof.
  intros Hr. split; [|split].
  - intros attribute raw w Hattr. apply __setattr___normalized; assumption.
  - intros attribute v w Hn Hp.
    destruct (decide (attribute = "comment_sort")) as [->|Hcs].
    + rewrite __setattr___comment_sort.
      destruct (warn_condition_Reddit _ _ Hr) as [[|] ->]; eauto.
    + exists w. rewrite __setattr___other.
      * rewrite object__setattr___field by assumption. reflexivity.
      * apply not_elem_of_cons. split; assumption.
  - intros self' w w' response sl cl fields attribute raw H Hresp Hu Hs Hnd Hin Hattr.
    destruct (_fetch_normalized _ _ _ _ _ _ _ _ _ _ H Hresp Hu Hs Hnd Hin Hattr)
      as (reddit & Hself' & Hreddit).
    exists reddit. split; [assumption|].
    intros Hnr. specialize (Hreddit Hnr). congruence.
Qed.

End FetchFacts.

(** The example retrieval and a second one after it, computed. *)
Lemma example_fetch_computed :
  example_fetch = (Return (example_fetched example_submission), example_fetch_world).
Proof. vm_compute. reflexivity. Qed.

Lemma example_refetch_computed :
  _fetch ascii_alnum url_path_segments example_API_PATH steady_transport
    (example_fetched example_submission) example_fetch_world
  = (Return (example_fetched example_submission),
     sent example_fetch_request example_fetch_world)
  /\ fst (_fetch_data example_API_PATH steady_transport
            (example_fetched example_submission) example_fetch_world)
     = fst (_fetch_data example_API_PATH steady_transport
              example_submission empty_world).
Proof. split; vm_compute; reflexivity. Qed.


Lemma _fetch_idempotent_witness :
  exists s1 w1 s2 w2,
    example_fetch = (Return s1, w1)
    /\ _fetch ascii_alnum url_path_segments example_API_PATH steady_transport s1 w1
       = (Return s2, w2)
    /\ s2 = s1.
Proof.
  destruct example_refetch_computed as (E2 & Esame).
  exists (example_fetched example_submission), example_fetch_world,
    (example_fetched example_submission),
    (sent example_fetch_request example_fetch_world).
  split; [exact example_fetch_computed|]. split; [exact E2|].
  exact (_fetch_idempotent ascii_alnum url_path_segments example_API_PATH
           steady_transport example_submission
           (example_fetched example_submission)
           (example_fetched example_submission) empty_world example_fetch_world
           (sent example_fetch_request example_fetch_world)
           example_fetch_computed E2 Esame).
Defined.

Lemma __setattr___normalizes_witness :
  __setattr__ example_submission "author" (VStr "bboe") empty_world
  = (Return (<["author" := typed_object "author" example_reddit (VStr "bboe")]>
               example_submission), empty_world)
  /\ (exists w', __setattr__ example_submission "title" (VStr "praw https") empty_world
                 = (Return (<["title" := VStr "praw https"]> example_submission), w'))
  /\ (exists self' w',
        example_fetch = (Return self', w')
        /\ exists reddit,
             self' !! "author"
             = Some (typed_object "author" reddit (VJson (JStr "bboe")))
             /\ ("_reddit" ∉ example_record.*1 -> reddit = example_reddit)).
Proof.
  pose proof (__setattr___normalizes ascii_alnum url_path_segments example_API_PATH
                steady_transport example_submission example_config eq_refl)
    as (Hdirect & Hother & Hfetch).
  split; [|split].
  - apply Hdirect. compute_done.
  - apply Hother; compute_done.
  - exists (example_fetched example_submission), example_fetch_world.
    split; [exact example_fetch_computed|].
    refine (Hfetch (example_fetched example_submission) empty_world
              example_fetch_world example_response _ _ example_record
              "author" (JStr "bboe") example_fetch_computed
              eq_refl eq_refl eq_refl _ _ _).
    + apply (bool_decide_unpack _). vm_compute. exact I.
    + right. left.
    + compute_done.
Defined.

(** * Further properties of the code *)

(** ** Chunking, for every chunk size *)

Lemma range_up_lookup (stop step : Z) : forall (fuel : nat) (pos : Z) (k : nat) (p : Z),
  range_up fuel pos stop step !! k = Some p ->
  p = pos + Z.of_nat k * step.
Proof.
  induction fuel as [|fuel IH]; intros pos k p H; simpl in H.
  - discriminate.
  - destruct (pos <? stop); [|discriminate].
    destruct k as [|k].
    + injection H as <-. lia.
    + apply IH in H. lia.
Qed.

(** With a positive [chunk_size], [_chunk] yields [ceil(L / chunk_size)]
    groups, none larger than fifty, and the group of rank [k] is the slice
    of fifty names that starts at [k * chunk_size]. *)
Theorem _chunk_groups_positive (chunk_size : Z) (fullname : string)
    (other_submissions : option (list string)) :
  0 < chunk_size ->
  exists groups,
    _chunk_groups chunk_size fullname other_submissions = Return groups
    /\ Z.of_nat (length groups)
       = ceil_div (Z.of_nat (length (all_submissions fullname other_submissions)))
                  chunk_size
    /\ Forall (fun g => Z.of_nat (length g) <= 50) groups
    /\ (forall (k : nat) g, groups !! k = Some g ->
          g = py_slice (all_submissions fullname other_submissions)
                (Z.of_nat k * chunk_size) (Z.of_nat k * chunk_size + 50)).
Proof.
  intros Hpos. unfold _chunk_groups.
  set (all := all_submissions fullname other_submissions).
  exists (slices 50 all (range_up (length all) 0 (Z.of_nat (length all)) chunk_size)).
  split; [|split; [|split]].
  - unfold py_range.
    rewrite (proj2 (Z.eqb_neq chunk_size 0)) by lia.
    rewrite (proj2 (Z.ltb_lt 0 chunk_size)) by lia.
    cbn [bind]. rewrite Z.sub_0_r, Nat2Z.id. reflexivity.
  - unfold slices. rewrite length_map.
    rewrite (range_up_length chunk_size Hpos) by lia.
    rewrite Z.sub_0_r. unfold ceil_div.
    assert (0 <= (Z.of_nat (length all) + chunk_size - 1) / chunk_size); [|lia].
    apply Z.div_pos; lia.
  - apply slices_length. lia.
  - intros k g Hk. unfold slices in Hk.
    rewrite list_lookup_fmap in Hk.
    destruct (range_up _ _ _ _ !! k) as [p|] eqn:Hp; [|discriminate].
    injection Hk as <-. apply range_up_lookup in Hp. subst p.
    rewrite Z.add_0_l. reflexivity.
Qed.

Lemma _chunk_groups_positive_witness :
  exists groups,
    _chunk_groups 2 "t3_a" (Some ["t3_b"; "t3_c"]) = Return groups
    /\ Z.of_nat (length groups)
       = ceil_div (Z.of_nat (length (all_submissions "t3_a" (Some ["t3_b"; "t3_c"])))) 2
    /\ Forall (fun g => Z.of_nat (length g) <= 50) groups
    /\ (forall (k : nat) g, groups !! k = Some g ->
          g = py_slice (all_submissions "t3_a" (Some ["t3_b"; "t3_c"]))
                (Z.of_nat k * 2) (Z.of_nat k * 2 + 50)).
Proof.
  exact (_chunk_groups_positive 2 "t3_a" (Some ["t3_b"; "t3_c"]) eq_refl).
Defined.

(** A zero [chunk_size] raises [ValueError]; a negative one yields no group
    at all, so that no name is handed on. *)
Theorem _chunk_not_positive (chunk_size : Z) (fullname : string)
    (other_submissions : option (list string)) :
  chunk_size <= 0 ->
  _chunk chunk_size fullname other_submissions
  = if chunk_size =? 0
    then Raise (ValueError "range() arg 3 must not be zero")
    else Return [].
Proof.
  intros Hle. unfold _chunk, _chunk_groups, py_range.
  destruct (Z.eqb_spec chunk_size 0) as [->|Hne]; [reflexivity|].
  rewrite (proj2 (Z.ltb_ge 0 chunk_size)) by lia.
  replace (Z.to_nat (0 - Z.of_nat (length (all_submissions fullname other_submissions))))
    with O by lia.
  reflexivity.
Qed.

Lemma _chunk_not_positive_witness :
  _chunk (-1) "t3_a" (Some ["t3_b"]) = Return []
  /\ _chunk 0 "t3_a" (Some ["t3_b"])
     = Raise (ValueError "range() arg 3 must not be zero").
Proof.
  split.
  - exact (_chunk_not_positive (-1) "t3_a" (Some ["t3_b"]) ltac:(lia)).
  - exact (_chunk_not_positive 0 "t3_a" (Some ["t3_b"]) ltac:(lia)).
Defined.

(** Up to fifty names, the submission's own included, make one group: with
    [chunk_size=50] the generator yields the names joined with commas, once.
    Without other submissions that is the fullname of the submission. *)
Theorem _chunk_single_group (fullname : string)
    (other_submissions : option (list string)) :
  (length (all_submissions fullname other_submissions) <= 50)%nat ->
  _chunk 50 fullname other_submissions
  = Return [py_join "," (all_submissions fullname other_submissions)].
Proof.
  intros Hlen. unfold _chunk, _chunk_groups.
  set (all := all_submissions fullname other_submissions) in *.
  unfold py_range. cbn [Z.eqb Z.ltb Z.compare bind].
  rewrite Z.sub_0_r, Nat2Z.id.
  assert (Hall : exists n, length all = S n).
  { unfold all, all_submissions. simpl. eauto. }
  destruct Hall as [n Hn]. rewrite Hn. cbn [range_up].
  rewrite (proj2 (Z.ltb_lt 0 (Z.of_nat (S n)))) by lia.
  assert (Hrest : range_up n (0 + 50) (Z.of_nat (S n)) 50 = []).
  { destruct n; [reflexivity|]. cbn [range_up].
    rewrite (proj2 (Z.ltb_ge (0 + 50) (Z.of_nat (S (S n))))) by lia. reflexivity. }
  rewrite Hrest. unfold omap. cbn [bind map].
  unfold py_slice. rewrite drop_0. rewrite take_ge by lia. reflexivity.
Qed.

Lemma _chunk_single_group_witness :
  _chunk 50 "t3_a" None = Return ["t3_a"]
  /\ _chunk 50 "t3_a" (Some ["t3_b"; "t3_c"]) = Return ["t3_a,t3_b,t3_c"].
Proof.
  split.
  - exact (_chunk_single_group "t3_a" None ltac:(simpl; lia)).
  - exact (_chunk_single_group "t3_a" (Some ["t3_b"; "t3_c"]) ltac:(simpl; lia)).
Defined.

(** ** Identifiers from URLs: what is returned and what is raised *)

Lemma py_last_elem {A} (l : list A) (x : A) : py_last l = Return x -> x ∈ l.
Proof.
  unfold py_last. destruct (last l) as [y|] eqn:Hl; [|discriminate].
  intros [= <-]. apply last_Some in Hl as [l' ->].
  apply elem_of_app. right. left.
Qed.

Lemma py_getitem_elem {A} (l : list A) (i : nat) (x : A) :
  py_getitem l i = Return x -> x ∈ l.
Proof.
  unfold py_getitem. destruct (l !! i) as [y|] eqn:Hl; [|discriminate].
  intros [= <-]. apply list_elem_of_lookup. eauto.
Qed.

Lemma checked_outcome (all_alnum : string -> bool) (url id : string) :
  checked all_alnum url id = Return id \/ checked all_alnum url id = Raise (InvalidURL url None).
Proof. unfold checked. destruct (str_isalnum all_alnum id); auto. Qed.

(** The identifier that [id_from_url] returns is one of the segments of the
    path, and it is not empty. *)
Theorem id_from_url_returns_segment (all_alnum : string -> bool)
    (_url_parts : string -> outcome (list string))
    (url : string) (parts : list string) (id : string) :
  _url_parts url = Return parts ->
  id_from_url all_alnum _url_parts url = Return id ->
  id ∈ parts /\ id <> "".
Proof.
  intros Hparts. unfold id_from_url. rewrite Hparts. cbn [bind].
  match goal with |- bind ?m _ = _ -> _ => destruct m as [sid|e] eqn:Hsid end;
    cbn [bind]; [|discriminate].
  destruct (str_isalnum all_alnum sid) eqn:Hs; cbn [negb]; [|discriminate].
  intros [= <-]. split.
  - destruct (negb (py_in "comments" parts) && negb (py_in "gallery" parts)).
    + destruct (py_last parts) as [l|] eqn:Hl; cbn [bind] in Hsid; [|discriminate].
      destruct (py_in "r" parts); [discriminate|].
      injection Hsid as <-. apply py_last_elem. assumption.
    + destruct (py_in "gallery" parts).
      * destruct (py_index "gallery" parts) as [i|]; cbn [bind] in Hsid;
          [|discriminate].
        apply py_getitem_elem in Hsid. assumption.
      * destruct (py_last parts) as [l|]; cbn [bind] in Hsid; [|discriminate].
        destruct (decide (l = "comments")); [discriminate|].
        destruct (py_index "comments" parts) as [i|]; cbn [bind] in Hsid;
          [|discriminate].
        apply py_getitem_elem in Hsid. assumption.
  - intros ->. discriminate.
Qed.

Lemma id_from_url_returns_segment_witness :
  "2gmzqe" ∈ [""; "r"; "redditdev"; "comments"; "2gmzqe"; "praw_https"]
  /\ "2gmzqe" <> "".
Proof.
  exact (id_from_url_returns_segment ascii_alnum url_path_segments
           "https://www.reddit.com/r/redditdev/comments/2gmzqe/praw_https/"
           [""; "r"; "redditdev"; "comments"; "2gmzqe"; "praw_https"] "2gmzqe"
           eq_refl eq_refl).
Defined.

(** When the path has segments [parts], [id_from_url] raises nothing but
    [InvalidURL] for its URL and [IndexError]; the latter exactly when there
    is no segment at all or when the first segment [gallery] is the last
    segment.  The [ValueError] of [list.index] never escapes. *)
Theorem id_from_url_errors (all_alnum : string -> bool)
    (_url_parts : string -> outcome (list string))
    (url : string) (parts : list string) :
  _url_parts url = Return parts ->
  (forall e, id_from_url all_alnum _url_parts url = Raise e ->
     e = IndexError \/ exists message, e = InvalidURL url message)
  /\ (id_from_url all_alnum _url_parts url = Raise IndexError <->
      parts = [] \/ exists pre, parts = pre ++ ["gallery"] /\ "gallery" ∉ pre).
Proof.
  intros Hparts.
  destruct (decide ("gallery" ∈ parts)) as [Hg|Hg].
  { apply list_elem_of_split_l in Hg as (pre & rest & Heq & Hpre).
    rewrite (id_from_url_gallery _ _ _ _ Hparts pre rest Heq Hpre).
    destruct rest as [|id rest].
    - split; [intros e [= <-]; auto|].
      split; [intros _; right; eauto | reflexivity].
    - split.
      + intros e He. destruct (checked_outcome all_alnum url id) as [Hc|Hc];
          rewrite Hc in He; [discriminate|].
        injection He as <-. right. eauto.
      + split.
        * intros He. destruct (checked_outcome all_alnum url id) as [Hc|Hc];
            rewrite Hc in He; discriminate.
        * intros [->|(pre' & Heq' & Hpre')].
          { destruct pre; discriminate. }
          exfalso. subst parts.
          assert (Hlen : length pre = length pre').
          { destruct (Nat.lt_trichotomy (length pre) (length pre')) as [Hlt|[?|Hlt]];
              [|assumption|].
            - exfalso. apply Hpre'. apply list_elem_of_lookup. exists (length pre).
              assert (E : (pre' ++ ["gallery"]) !! length pre = Some "gallery").
              { rewrite <- Heq'. rewrite lookup_app_r by lia.
                rewrite Nat.sub_diag. reflexivity. }
              rewrite lookup_app_l in E by assumption. assumption.
            - exfalso. apply (f_equal length) in Heq'.
              rewrite !length_app in Heq'. simpl in Heq'. lia. }
          apply (f_equal length) in Heq'. rewrite !length_app in Heq'.
          simpl in Heq'. lia. }
  destruct (decide ("comments" ∈ parts)) as [Hc|Hc].
  { apply list_elem_of_split_l in Hc as (pre & rest & Heq & Hpre).
    rewrite (id_from_url_comments _ _ _ _ Hparts pre rest Heq Hpre Hg).
    assert (Hne : parts <> []) by (subst parts; destruct pre; discriminate).
    assert (Hnog : ~ exists pre', parts = pre' ++ ["gallery"] /\ "gallery" ∉ pre').
    { intros (pre' & -> & _). apply Hg. apply elem_of_app. right. left. }
    destruct (decide (last parts = Some "comments")) as [Hl|Hl].
    - split; [intros e [= <-]; right; eauto|].
      split; [discriminate | intros [?|?]; contradiction].
    - destruct rest as [|id rest].
      + exfalso. apply Hl. subst parts. apply last_snoc.
      + split.
        * intros e He. destruct (checked_outcome all_alnum url id) as [Hk|Hk];
            rewrite Hk in He; [discriminate|].
          injection He as <-. right. eauto.
        * split; [|intros [?|?]; contradiction].
          intros He. destruct (checked_outcome all_alnum url id) as [Hk|Hk];
            rewrite Hk in He; discriminate. }
  destruct (last parts) as [id|] eqn:Hlast.
  - rewrite (id_from_url_last _ _ _ _ Hparts id Hc Hg Hlast).
    assert (Hne : parts <> []) by (intros ->; discriminate).
    assert (Hnog : ~ exists pre', parts = pre' ++ ["gallery"] /\ "gallery" ∉ pre').
    { intros (pre' & -> & _). apply Hg. apply elem_of_app. right. left. }
    destruct (py_in "r" parts).
    + split; [intros e [= <-]; right; eauto|].
      split; [discriminate | intros [?|?]; contradiction].
    + split.
      * intros e He. destruct (checked_outcome all_alnum url id) as [Hk|Hk];
          rewrite Hk in He; [discriminate|].
        injection He as <-. right. eauto.
      * split; [|intros [?|?]; contradiction].
        intros He. destruct (checked_outcome all_alnum url id) as [Hk|Hk];
          rewrite Hk in He; discriminate.
  - apply last_None in Hlast. subst parts.
    unfold id_from_url. rewrite Hparts. cbn.
    split; [intros e [= <-]; auto|].
    split; [intros _; auto | reflexivity].
Qed.

Lemma id_from_url_errors_witness :
  (forall e, id_from_url ascii_alnum url_path_segments "https://www.reddit.com/gallery" = Raise e ->
     e = IndexError
     \/ exists message, e = InvalidURL "https://www.reddit.com/gallery" message)
  /\ (id_from_url ascii_alnum url_path_segments "https://www.reddit.com/gallery" = Raise IndexError
      <-> [""; "gallery"] = []
          \/ exists pre, [""; "gallery"] = pre ++ ["gallery"] /\ "gallery" ∉ pre).
Proof.
  exact (id_from_url_errors ascii_alnum url_path_segments "https://www.reddit.com/gallery"
           [""; "gallery"] eq_refl).
Defined.

(** ** Assignment before the fetch *)

(** On a submission that is not fetched, an assignment to [comment_sort] is
    stored and nothing is emitted: the warning is for fetched submissions
    only. *)
Theorem __setattr___comment_sort_before_fetch (self : obj) (v : value) (w : world) :
  (forall fetched, self !! "_fetched" = Some fetched -> truthy fetched = false) ->
  __setattr__ self "comment_sort" v w
  = (Return (<["comment_sort" := v]> self), w).
Proof.
  intros Hf. rewrite __setattr___comment_sort.
  destruct (self !! "_fetched") as [fetched|] eqn:Hfetched.
  - unfold warn_condition, hasattr, getattr. rewrite Hfetched.
    rewrite bool_decide_eq_true_2 by eauto. cbn [negb bind].
    rewrite (Hf fetched eq_refl). reflexivity.
  - rewrite warn_condition_unfetched by assumption. reflexivity.
Qed.

Lemma __setattr___comment_sort_before_fetch_witness :
  __setattr__ example_submission "comment_sort" (VStr "new") empty_world
  = (Return (<["comment_sort" := VStr "new"]> example_submission), empty_world).
Proof.
  apply __setattr___comment_sort_before_fetch.
  intros fetched H. vm_compute in H. injection H as <-. reflexivity.
Defined.

(** ** The retrieval: one request, and what the merge overwrites *)

Lemma offline_merge_response (all_alnum : string -> bool)
    (_url_parts : string -> outcome (list string))
    (self : obj) (response : json) :
  offline (merge_response all_alnum _url_parts self response).
Proof.
  unfold merge_response.
  repeat first
    [ apply offline__init__ | apply offline__setattr__
    | apply offline_ret | apply offline_lift
    | apply offline_mbind; [|intros ?]
    | match goal with
      | |- offline (let '(_, _) := ?x in _) => destruct x
      end ].
Qed.

Lemma Reddit_call_Reddit (transport : list request -> request -> outcome json)
    (config : Config) (name : string) (r : request) (w : world) :
  Reddit_call transport (VReddit config) name r w
  = (transport (requests w) r, sent r w).
Proof. reflexivity. Qed.

Section FetchMore.

Variable all_alnum : string -> bool.
Variable _url_parts : string -> outcome (list string).
Variable API_PATH : string -> option string.
Variable transport : list request -> request -> outcome json.

Lemma _fetch_data_result (self : obj) (w : world) (template : string)
    (id comment_limit comment_sort : value) (config : Config) :
  self !! "id" = Some id ->
  self !! "comment_limit" = Some comment_limit ->
  self !! "comment_sort" = Some comment_sort ->
  self !! "_reddit" = Some (VReddit config) ->
  API_PATH "submission" = Some template ->
  _fetch_data API_PATH transport self w
  = (transport (requests w) (fetch_request template id comment_limit comment_sort),
     sent (fetch_request template id comment_limit comment_sort) w).
Proof.
  intros Hid Hl Hs Hr Ht.
  unfold _fetch_data, _fetch_info, mbind, lift, getattr, API_PATH_get.
  rewrite Hid, Hl, Hs. cbn [bind]. rewrite Ht, Hr. reflexivity.
Qed.

(** [_fetch] issues exactly one request, the retrieval of the submission
    with its identifier and its two ordering parameters, whatever the
    transport answers and whether or not the merge of the answer succeeds. *)
Theorem _fetch_one_request (self : obj) (w : world) (template : string)
    (id comment_limit comment_sort : value) (config : Config) :
  self !! "id" = Some id ->
  self !! "comment_limit" = Some comment_limit ->
  self !! "comment_sort" = Some comment_sort ->
  self !! "_reddit" = Some (VReddit config) ->
  API_PATH "submission" = Some template ->
  requests (snd (_fetch all_alnum _url_parts API_PATH transport self w))
  = requests w ++ [fetch_request template id comment_limit comment_sort].
Proof.
  intros Hid Hl Hs Hr Ht. unfold _fetch, mbind.
  rewrite (_fetch_data_result _ _ _ _ _ _ _ Hid Hl Hs Hr Ht).
  destruct (transport _ _) as [response|e]; [|reflexivity].
  rewrite (offline_requests _ _ (offline_merge_response _ _ _ _)). reflexivity.
Qed.

(** A field of the record that is not normalized. *)
Lemma assign_items_plain (fields : list (string * json)) :
  forall (s s' : obj) (w w' : world) (k : string) (raw : json),
    for_each assign_item fields s w = (Return s', w') ->
    NoDup fields.*1 ->
    (k, raw) ∈ fields ->
    k ∉ normalized_fields ->
    s' !! k = Some (VJson raw).
Proof.
  induction fields as [|[k0 j0] fields IH]; intros s s' w w' k raw H Hnd Hin Hk.
  - apply elem_of_nil in Hin. contradiction.
  - cbn [for_each] in H. apply mbind_Return in H as (s1 & w1 & Hset & H).
    cbn [fmap list_fmap fst] in Hnd. apply NoDup_cons in Hnd as [Hk0 Hnd].
    apply elem_of_cons in Hin as [[= -> ->]|Hin].
    + apply __setattr___Return in Hset as (v' & -> & Hv' & _). cbn [fst snd] in *.
      rewrite (assign_items_other _ _ _ _ _ _ H Hk0).
      rewrite (Hv' Hk). apply lookup_insert_eq.
    + apply (IH _ _ _ _ _ _ H Hnd Hin Hk).
Qed.

(** Last fetch wins: after [_fetch], a field of the record of the response
    that the hook does not normalize, and that is neither an ordering
    parameter nor one of [_fetched], [_comments_by_id] and [comments], holds
    the raw value of the record, whatever it held before. *)
Theorem _fetch_overwrites_field (self self' : obj) (w w' : world)
    (response sl cl : json) (fields : list (string * json))
    (attribute : string) (raw : json) :
  _fetch all_alnum _url_parts API_PATH transport self w = (Return self', w') ->
  fst (_fetch_data API_PATH transport self w) = Return response ->
  unpack_pair response = Return (sl, cl) ->
  submission_data_of sl = Return (JDict fields) ->
  NoDup fields.*1 ->
  (attribute, raw) ∈ fields ->
  attribute ∉ normalized_fields ->
  attribute ∉ ["comment_sort"; "comment_limit"; "_fetched"; "_comments_by_id";
               "comments"] ->
  self' !! attribute = Some (VJson raw).
Proof.
  intros H Hresp Hu Hs Hnd Hin Hplain Hattr.
  apply _fetch_Return in H as (response' & w1 & Hd & H).
  rewrite Hd in Hresp. injection Hresp as ->.
  apply merge_response_Return in H
    as (sl' & cl' & reddit & sdata & record & T & children
        & Hu' & Hr & Hs' & Hrec & HT & _ & ->).
  rewrite Hu in Hu'. injection Hu' as <- <-.
  rewrite Hs in Hs'. injection Hs' as <-.
  injection Hrec as <-.
  destruct (__init___record_Return _ _ _ _ _ _ _ HT)
    as (fields' & S & w2 & [= <-] & HS & ->).
  repeat (apply not_elem_of_cons in Hattr as [? Hattr]).
  apply hydrated_field.
  - rewrite !not_elem_of_cons.
    repeat split; first [assumption | apply not_elem_of_nil].
  - rewrite !lookup_insert_ne by congruence.
    apply (assign_items_plain _ _ _ _ _ _ _ HS Hnd Hin Hplain).
Qed.

(** [_fetch] overwrites nothing else: an attribute that the record of the
    response does not carry, and that is none of [_reddit], [_fetched],
    [_comments_by_id] and [comments], holds after [_fetch] what it held
    before. *)
Theorem _fetch_keeps_unlisted (self self' : obj) (w w' : world)
    (response sl cl : json) (fields : list (string * json)) (attribute : string) :
  _fetch all_alnum _url_parts API_PATH transport self w = (Return self', w') ->
  fst (_fetch_data API_PATH transport self w) = Return response ->
  unpack_pair response = Return (sl, cl) ->
  submission_data_of sl = Return (JDict fields) ->
  attribute ∉ fields.*1 ->
  attribute ∉ fetch_attributes ->
  self' !! attribute = self !! attribute.
Proof.
  intros H Hresp Hu Hs Hin Hattr.
  apply _fetch_Return in H as (response' & w1 & Hd & H).
  rewrite Hd in Hresp. injection Hresp as ->.
  apply merge_response_Return in H
    as (sl' & cl' & reddit & sdata & record & T & children
        & Hu' & Hr & Hs' & Hrec & HT & _ & ->).
  rewrite Hu in Hu'. injection Hu' as <- <-.
  rewrite Hs in Hs'. injection Hs' as <-.
  injection Hrec as <-.
  destruct (__init___record_Return _ _ _ _ _ _ _ HT)
    as (fields' & S & w2 & [= <-] & HS & ->).
  unfold fetch_attributes in Hattr.
  repeat (apply not_elem_of_cons in Hattr as [? Hattr]).
  unfold hydrated. rewrite !lookup_insert_ne by congruence.
  apply lookup_union_r. rewrite lookup_insert_ne by congruence.
  destruct (decide (attribute = "comment_sort")) as [->|Hcs];
    [apply lookup_delete_eq|].
  rewrite lookup_delete_ne by congruence.
  destruct (decide (attribute = "comment_limit")) as [->|Hcl];
    [apply lookup_delete_eq|].
  rewrite lookup_delete_ne by congruence.
  rewrite !lookup_insert_ne by congruence.
  rewrite (assign_items_other _ _ _ _ _ _ HS Hin).
  unfold blank_submission. rewrite !lookup_insert_ne by congruence.
  apply lookup_empty.
Qed.

(** A response whose submission record is [null] makes [_fetch] end in the
    [TypeError] of the constructor: the transient instance is built with no
    identity at all. *)
Theorem _fetch_null_record (self : obj) (w : world) (response sl cl cd : json)
    (listing : list (string * json)) :
  fst (_fetch_data API_PATH transport self w) = Return response ->
  unpack_pair response = Return (sl, cl) ->
  json_getkey cl "data" = Return cd ->
  Listing cd = Return listing ->
  submission_data_of sl = Return JNull ->
  fst (_fetch all_alnum _url_parts API_PATH transport self w) = Raise identity_error.
Proof.
  intros Hresp Hu Hcd Hl Hs. unfold _fetch, mbind.
  destruct (_fetch_data API_PATH transport self w) as [r w1] eqn:Hd.
  cbn [fst] in Hresp. subst r.
  destruct (_fetch_data_Return _ _ _ _ _ _ Hd) as (config & Hr).
  unfold merge_response, mbind, lift, getattr.
  rewrite Hu, Hr, Hcd, Hl, Hs. reflexivity.
Qed.

(** The retrieval asks with the ordering parameter last assigned: after
    an assignment to [comment_sort], warned about or not, the request of
    [_fetch] carries the assigned value. *)
Theorem _fetch_uses_assigned_sort (self : obj) (w : world) (template : string)
    (id comment_limit v : value) (config : Config) :
  self !! "id" = Some id ->
  self !! "comment_limit" = Some comment_limit ->
  self !! "_reddit" = Some (VReddit config) ->
  API_PATH "submission" = Some template ->
  exists w1,
    __setattr__ self "comment_sort" v w = (Return (<["comment_sort" := v]> self), w1)
    /\ requests (snd (_fetch all_alnum _url_parts API_PATH transport
                        (<["comment_sort" := v]> self) w1))
       = requests w1 ++ [fetch_request template id comment_limit v].
Proof.
  intros Hid Hl Hr Ht.
  assert (Hset : exists w1, __setattr__ self "comment_sort" v w
                            = (Return (<["comment_sort" := v]> self), w1)).
  { rewrite __setattr___comment_sort.
    destruct (warn_condition_Reddit _ _ Hr) as [[|] ->]; eauto. }
  destruct Hset as [w1 Hset]. exists w1. split; [assumption|].
  unfold _fetch, mbind.
  rewrite (_fetch_data_result (<["comment_sort" := v]> self) w1 template id
             comment_limit v config).
  - destruct (transport _ _) as [response|e]; [|reflexivity].
    rewrite (offline_requests _ _ (offline_merge_response _ _ _ _)). reflexivity.
  - rewrite lookup_insert_ne by discriminate. assumption.
  - rewrite lookup_insert_ne by discriminate. assumption.
  - apply lookup_insert_eq.
  - rewrite lookup_insert_ne by discriminate. assumption.
  - assumption.
Qed.

End FetchMore.

Lemma _fetch_one_request_witness :
  requests (snd example_fetch)
  = requests empty_world
    ++ [fetch_request "comments/{id}/" (VStr "2gmzqe") (VInt 2048)
          (VStr "confidence")].
Proof.
  exact (_fetch_one_request ascii_alnum url_path_segments example_API_PATH steady_transport
           example_submission empty_world "comments/{id}/" (VStr "2gmzqe")
           (VInt 2048) (VStr "confidence") example_config
           eq_refl eq_refl eq_refl eq_refl eq_refl).
Defined.

(** The example retrieval, computed. *)
Lemma example_fetch_result (self : obj) :
  self = example_submission \/ self = <["saved" := VBool true]> example_submission ->
  _fetch ascii_alnum url_path_segments actions_API_PATH steady_transport self empty_world
  = (Return (example_fetched self),
     sent (fetch_request "comments/{id}/" (VStr "2gmzqe") (VInt 2048)
             (VStr "confidence")) empty_world).
Proof. intros [-> | ->]; vm_compute; reflexivity. Qed.

Lemma _fetch_overwrites_field_witness :
  example_fetched example_submission !! "title" = Some (VJson (JStr "praw https")).
Proof.
  refine (_fetch_overwrites_field ascii_alnum url_path_segments actions_API_PATH
            steady_transport example_submission
            (example_fetched example_submission) empty_world _
            example_response _ _ example_record "title" (JStr "praw https")
            (example_fetch_result _ (or_introl eq_refl))
            eq_refl eq_refl eq_refl _ _ _ _).
  - apply (bool_decide_unpack _). vm_compute. exact I.
  - do 3 right. left.
  - compute_done.
  - compute_done.
Defined.

Lemma _fetch_keeps_unlisted_witness :
  example_fetched (<["saved" := VBool true]> example_submission) !! "saved"
  = (<["saved" := VBool true]> example_submission) !! "saved".
Proof.
  refine (_fetch_keeps_unlisted ascii_alnum url_path_segments actions_API_PATH
            steady_transport (<["saved" := VBool true]> example_submission)
            (example_fetched (<["saved" := VBool true]> example_submission))
            empty_world _ example_response _ _ example_record "saved"
            (example_fetch_result _ (or_intror eq_refl))
            eq_refl eq_refl eq_refl _ _).
  - compute_done.
  - compute_done.
Defined.

Lemma _fetch_null_record_witness :
  fst (_fetch ascii_alnum url_path_segments example_API_PATH
         (constant_transport null_record_response) example_submission empty_world)
  = Raise identity_error.
Proof.
  refine (_fetch_null_record ascii_alnum url_path_segments example_API_PATH
            (constant_transport null_record_response) example_submission
            empty_world null_record_response _ _ _ _
            eq_refl eq_refl eq_refl eq_refl eq_refl).
Defined.

(** ** The one-shot actions *)

Section ActionFacts.

Variable all_alnum : string -> bool.
Variable _url_parts : string -> outcome (list string).
Variable API_PATH : string -> option string.
Variable fullname : obj -> outcome string.
Variable transport : list request -> request -> outcome json.

Lemma post_target_Reddit (thing : obj) (endpoint url : string) (config : Config) :
  thing !! "_reddit" = Some (VReddit config) ->
  API_PATH endpoint = Some url ->
  post_target API_PATH thing endpoint = Return (VReddit config, url).
Proof.
  intros Hr Hurl. unfold post_target, getattr, API_PATH_get.
  rewrite Hr. cbn [bind Reddit_method]. rewrite Hurl. reflexivity.
Qed.

Lemma post_fullname_request (endpoint : string) (thing : obj) (w : world)
    (fn url : string) (config : Config) :
  fullname thing = Return fn ->
  thing !! "_reddit" = Some (VReddit config) ->
  API_PATH endpoint = Some url ->
  post_fullname API_PATH fullname transport endpoint thing w
  = (match transport (requests w) (post_request url [] [("id", VStr fn)]) with
     | Return _ => Return tt
     | Raise e => Raise e
     end,
     sent (post_request url [] [("id", VStr fn)]) w).
Proof.
  intros Hfn Hr Hurl. unfold post_fullname, mbind, lift.
  rewrite (post_target_Reddit _ _ _ _ Hr Hurl), Hfn. cbn [fst snd].
  rewrite Reddit_call_Reddit.
  destruct (transport _ _); reflexivity.
Qed.

(** [approve], [ignore_reports], [lock], [unignore_reports] and [unlock]
    each issue one request: a POST to the entry of [API_PATH] of the same
    name, with the fullname under the key [id] and nothing else.  The call
    returns when the transport answers and raises every error of the
    transport as it is, [Conflict] included. *)
Theorem post_fullname_result (name : string) (call : obj -> M unit)
    (thing : obj) (w : world) (fn url : string) (config : Config) :
  (name, call) ∈ [("approve", approve API_PATH fullname transport);
                  ("ignore_reports", ignore_reports API_PATH fullname transport);
                  ("lock", lock API_PATH fullname transport);
                  ("unignore_reports", unignore_reports API_PATH fullname transport);
                  ("unlock", unlock API_PATH fullname transport)] ->
  fullname thing = Return fn ->
  thing !! "_reddit" = Some (VReddit config) ->
  API_PATH name = Some url ->
  let r := {| method := "POST"; path := (url, []); params := [];
              data := [("id", VStr fn)] |} in
  call thing w
  = (match transport (requests w) r with
     | Return _ => Return tt
     | Raise e => Raise e
     end,
     sent r w).
Proof.
  intros Hin Hfn Hr Hurl r.
  rewrite !elem_of_cons, elem_of_nil in Hin.
  destruct Hin as [H|[H|[H|[H|[H|[]]]]]]; injection H as -> ->;
    apply (post_fullname_request _ thing w fn url config Hfn Hr Hurl).
Qed.

(** [sticky] issues its one request whatever the transport answers, and
    returns the answer when there is one. *)
Theorem sticky_one_request (thing : obj) (bottom state : bool) (w : world)
    (fn url : string) (config : Config) :
  fullname thing = Return fn ->
  thing !! "_reddit" = Some (VReddit config) ->
  API_PATH "sticky_submission" = Some url ->
  requests (snd (sticky API_PATH fullname transport thing bottom state w))
  = requests w ++ [sticky_request url fn bottom state]
  /\ (forall response,
        transport (requests w) (sticky_request url fn bottom state)
        = Return response ->
        fst (sticky API_PATH fullname transport thing bottom state w)
        = Return (VJson response)).
Proof.
  intros Hfn Hr Hurl.
  rewrite (sticky_result _ _ _ _ _ _ _ _ _ _ Hfn Hr Hurl). split.
  - reflexivity.
  - intros response ->. reflexivity.
Qed.

(** What [send_removal_message] returns is decided by the answer of the
    transport to its request: an answer that Python counts as false (null,
    an empty list, an empty dictionary) is turned into [None], every other
    answer is returned as it is. *)
Theorem send_removal_message_None_or_true (self : moderation) (api : string)
    (message title type : string) (w : world) (fn url : string)
    (config : Config) (response : json) :
  REMOVAL_MESSAGE_API self = Some api ->
  API_PATH api = Some url ->
  fullname (thing self) = Return fn ->
  thing self !! "_reddit" = Some (VReddit config) ->
  transport (requests w)
    {| method := "POST"; path := (url, []); params := [];
       data := [("json", VJson (JDict [("item_id", JList [JStr fn]);
                                       ("message", JStr message);
                                       ("title", JStr title);
                                       ("type", JStr type)]))] |}
  = Return response ->
  (truthy (VJson response) = false ->
   fst (send_removal_message API_PATH fullname transport self message title type w)
   = Return VNone)
  /\ (truthy (VJson response) = true ->
      fst (send_removal_message API_PATH fullname transport self message title type w)
      = Return (VJson response)).
Proof.
  intros Hapi Hurl Hfn Hr Hresponse.
  rewrite (send_removal_message_result _ _ _ _ _ _ _ _ _ _ _ _
             Hapi Hurl Hfn Hr).
  unfold removal_message_request. rewrite Hresponse. cbn [fst].
  split; intros ->; reflexivity.
Qed.

(** When the transport answers, [remove] issues the removal, a POST to the
    entry [remove] with the fullname under [id] and the flag under [spam],
    and after it the removal reason, a POST to the entry [removal_reasons]
    with the fullname, the note and the reason under the key [json],
    exactly when the reason or the note is not empty; the [ValueError] of
    [_add_removal_reason] is never met. *)
Theorem remove_requests (thing : obj) (mod_note : string) (spam : bool)
    (reason_id : option string) (w : world) (fn url_remove url_reasons : string)
    (config : Config) :
  fullname thing = Return fn ->
  thing !! "_reddit" = Some (VReddit config) ->
  API_PATH "remove" = Some url_remove ->
  API_PATH "removal_reasons" = Some url_reasons ->
  answers_all transport ->
  remove API_PATH fullname transport thing mod_note spam reason_id w
  = (Return tt,
     {| requests :=
          requests w
          ++ {| method := "POST"; path := (url_remove, []); params := [];
                data := [("id", VStr fn); ("spam", VBool spam)] |}
             :: (if decide ((reason_id = None \/ reason_id = Some "")
                            /\ mod_note = "")
                 then []
                 else [{| method := "POST"; path := (url_reasons, []);
                          params := [];
                          data :=
                            [("json",
                              VJson (JDict
                                [("item_ids", JList [JStr fn]);
                                 ("mod_note", JStr mod_note);
                                 ("reason_id",
                                  match reason_id with
                                  | Some r => JStr r
                                  | None => JNull
                                  end)]))] |}]);
        warnings := warnings w |}).
Proof.
  intros Hfn Hr Hu1 Hu2 Hall. unfold remove, mbind at 1, lift at 1.
  rewrite Hfn. unfold mbind at 1, lift at 1.
  rewrite (post_target_Reddit _ _ _ _ Hr Hu1). cbn [fst snd].
  unfold mbind at 1. rewrite Reddit_call_Reddit.
  destruct (Hall (requests w) (remove_request url_remove fn spam)) as [j ->].
  destruct (truthy_opt reason_id || truthy_opt (Some mod_note)) eqn:Hc.
  - rewrite decide_False.
    2:{ intros [[-> | ->] ->]; discriminate. }
    unfold _add_removal_reason.
    apply orb_true_iff in Hc.
    assert (Hg : negb (truthy_opt reason_id) && negb (truthy_opt (Some mod_note))
                 = false).
    { destruct Hc as [-> | ->]; [reflexivity | apply andb_false_r]. }
    rewrite Hg. unfold mbind, lift. rewrite Hfn.
    rewrite (post_target_Reddit _ _ _ _ Hr Hu2). cbn [fst snd].
    rewrite Reddit_call_Reddit.
    destruct (Hall (requests (sent (remove_request url_remove fn spam) w))
                (removal_reason_request url_reasons fn mod_note reason_id))
      as [j' ->].
    unfold ret, sent. cbn [requests warnings].
    rewrite <- app_assoc. reflexivity.
  - rewrite decide_True; [reflexivity|].
    apply orb_false_iff in Hc as [H1 H2].
    destruct mod_note; [|discriminate].
    destruct reason_id as [[|]|]; try discriminate; auto.
Qed.

(** [distinguish] reads the fullname, then fetches the submission, then
    issues its request: a POST to the entry [distinguish] with [how] and the
    fullname under [id], and with [sticky] exactly when it is asked for and
    the fetched submission has a true [is_root].  [undistinguish] sends
    [how] as [no] and never [sticky]. *)
Theorem distinguish_result (thing thing' : obj) (how : string) (sticky : bool)
    (w w1 : world) (fn url : string) (config : Config) :
  fullname thing = Return fn ->
  _fetch all_alnum _url_parts API_PATH transport thing w = (Return thing', w1) ->
  thing' !! "_reddit" = Some (VReddit config) ->
  API_PATH "distinguish" = Some url ->
  let root := match thing' !! "is_root" with
              | Some v => truthy v
              | None => false
              end in
  let r := {| method := "POST"; path := (url, []); params := [];
              data := [("how", VStr how); ("id", VStr fn)]
                      ++ (if sticky && root then [("sticky", VBool true)]
                          else []) |} in
  let r_no := {| method := "POST"; path := (url, []); params := [];
                 data := [("how", VStr "no"); ("id", VStr fn)] |} in
  distinguish all_alnum _url_parts API_PATH fullname transport thing how sticky w
  = (match transport (requests w1) r with
     | Return _ => Return thing'
     | Raise e => Raise e
     end,
     sent r w1)
  /\ undistinguish all_alnum _url_parts API_PATH fullname transport thing w
     = (match transport (requests w1) r_no with
        | Return _ => Return thing'
        | Raise e => Raise e
        end,
        sent r_no w1).
Proof.
  intros Hfn Hfetch Hr Hurl root r r_no.
  assert (Hroot : truthy (is_root thing') = root).
  { unfold is_root, root. destruct (thing' !! "is_root"); reflexivity. }
  assert (H : forall how sticky,
    distinguish all_alnum _url_parts API_PATH fullname transport thing how sticky w
    = (match transport (requests w1)
               (distinguish_request url fn how (sticky && root)) with
       | Return _ => Return thing'
       | Raise e => Raise e
       end,
       sent (distinguish_request url fn how (sticky && root)) w1)).
  { intros how' sticky'. unfold distinguish, mbind at 1, lift at 1. rewrite Hfn.
    unfold mbind at 1. rewrite Hfetch.
    unfold mbind, lift. rewrite (post_target_Reddit _ _ _ _ Hr Hurl). cbn [fst snd].
    rewrite Reddit_call_Reddit, Hroot.
    destruct (transport _ _); reflexivity. }
  split; [apply H|]. unfold undistinguish. rewrite H. reflexivity.
Qed.

(** On a fetched submission, [choices] does not retrieve the submission: it
    issues one request, a POST to the entry [flairselector] filled with the
    subreddit of the submission, with the fullname under the key [link],
    and returns the entry [choices] of the answer, with a [KeyError] when
    the answer is a dictionary without it. *)
Theorem choices_on_fetched (submission : obj) (w : world) (fetched subreddit : value)
    (fn template : string) (config : Config) :
  submission !! "_fetched" = Some fetched ->
  truthy fetched = true ->
  submission !! "subreddit" = Some subreddit ->
  submission !! "_reddit" = Some (VReddit config) ->
  fullname submission = Return fn ->
  API_PATH "flairselector" = Some template ->
  let r := {| method := "POST"; path := (template, [("subreddit", subreddit)]);
              params := []; data := [("link", VStr fn)] |} in
  snd (choices all_alnum _url_parts API_PATH fullname transport submission w)
  = sent r w
  /\ (forall d,
        transport (requests w) r = Return (JDict d) ->
        fst (choices all_alnum _url_parts API_PATH fullname transport submission w)
        = match assoc_get "choices" d with
          | Some result => Return (submission, result)
          | None => Raise (KeyError "choices")
          end)
  /\ (forall e,
        transport (requests w) r = Raise e ->
        fst (choices all_alnum _url_parts API_PATH fullname transport submission w)
        = Raise e).
Proof.
  intros Hf Ht Hs Hr Hfn Htemplate r.
  assert (H : choices all_alnum _url_parts API_PATH fullname transport submission w
              = (match transport (requests w) r with
                 | Return data =>
                     match json_getkey data "choices" with
                     | Return result => Return (submission, result)
                     | Raise e => Raise e
                     end
                 | Raise e => Raise e
                 end,
                 sent r w)).
  { unfold choices, fetch_if_needed, mbind, lift, getattr, API_PATH_get.
    rewrite Hf, Ht. cbn [negb ret]. rewrite Htemplate, Hs, Hr.
    cbn [Reddit_method]. rewrite Hfn, Reddit_call_Reddit.
    change (choices_request template subreddit fn) with r.
    destruct (transport _ _) as [data|e]; [|reflexivity].
    destruct (json_getkey data "choices"); reflexivity. }
  rewrite H. split; [reflexivity|]. split.
  - intros d ->. cbn [fst json_getkey].
    destruct (assoc_get "choices" d); reflexivity.
  - intros e ->. reflexivity.
Qed.

(** On a submission that is not fetched, [choices] fetches it first: its own
    request follows the retrieval, and its path and its data carry the
    subreddit and the fullname of the fetched submission. *)
Theorem choices_fetches_first (submission submission' : obj) (w w1 : world)
    (fetched subreddit : value) (fn template : string) (config : Config) :
  submission !! "_fetched" = Some fetched ->
  truthy fetched = false ->
  _fetch all_alnum _url_parts API_PATH transport submission w = (Return submission', w1) ->
  submission' !! "subreddit" = Some subreddit ->
  submission' !! "_reddit" = Some (VReddit config) ->
  fullname submission' = Return fn ->
  API_PATH "flairselector" = Some template ->
  requests (snd (choices all_alnum _url_parts API_PATH fullname transport submission w))
  = requests w1
    ++ [{| method := "POST"; path := (template, [("subreddit", subreddit)]);
           params := []; data := [("link", VStr fn)] |}].
Proof.
  intros Hf Ht Hfetch Hs Hr Hfn Htemplate.
  unfold choices, fetch_if_needed, mbind at 1, mbind at 1, lift at 1, getattr.
  rewrite Hf, Ht. cbn [negb]. rewrite Hfetch.
  unfold mbind, lift, getattr, API_PATH_get.
  rewrite Htemplate, Hs, Hr. cbn [Reddit_method]. rewrite Hfn, Reddit_call_Reddit.
  destruct (transport _ _) as [data|e]; [|reflexivity].
  destruct (json_getkey data "choices"); reflexivity.
Qed.

Lemma post_chunk_result (endpoint url : string) (self : obj) (config : Config)
    (c : string) (w : world) :
  self !! "_reddit" = Some (VReddit config) ->
  API_PATH endpoint = Some url ->
  answers_all transport ->
  post_chunk API_PATH transport endpoint self tt c w
  = (Return tt, sent (post_request url [] [("id", VStr c)]) w).
Proof.
  intros Hr Hurl Hall. unfold post_chunk, mbind, lift.
  rewrite (post_target_Reddit _ _ _ _ Hr Hurl). cbn [fst snd].
  rewrite Reddit_call_Reddit.
  destruct (Hall (requests w) (post_request url [] [("id", VStr c)])) as [j ->].
  reflexivity.
Qed.

(** The loop of [hide] and [unhide], when the transport answers: one request
    for each chunk, in order. *)
Lemma for_each_post_chunk (endpoint url : string) (self : obj) (config : Config)
    (chunks : list string) :
  self !! "_reddit" = Some (VReddit config) ->
  API_PATH endpoint = Some url ->
  answers_all transport ->
  forall w,
    for_each (post_chunk API_PATH transport endpoint self) chunks tt w
    = (Return tt,
       {| requests :=
            requests w
            ++ map (fun c => post_request url [] [("id", VStr c)]) chunks;
          warnings := warnings w |}).
Proof.
  intros Hr Hurl Hall. induction chunks as [|c chunks IH]; intros w.
  - cbn [for_each map ret]. rewrite app_nil_r. destruct w; reflexivity.
  - cbn [for_each]. unfold mbind.
    rewrite (post_chunk_result _ _ _ _ _ _ Hr Hurl Hall).
    rewrite IH. cbn [sent requests warnings map].
    rewrite <- app_assoc. reflexivity.
Qed.

Lemma hide_loop_requests (endpoint url : string) (self : obj)
    (other_submissions : option (list obj)) (w : world) (fn : string)
    (names : option (list string)) (config : Config)
    (groups : list (list string)) :
  fullname self = Return fn ->
  other_fullnames fullname other_submissions = Return names ->
  self !! "_reddit" = Some (VReddit config) ->
  API_PATH endpoint = Some url ->
  answers_all transport ->
  _chunk_groups 50 fn names = Return groups ->
  hide_loop API_PATH fullname transport endpoint self other_submissions w
  = (Return tt,
     {| requests :=
          requests w
          ++ map (fun g => post_request url [] [("id", VStr (py_join "," g))])
               groups;
        warnings := warnings w |}).
Proof.
  intros Hfn Hnames Hr Hurl Hall Hgroups.
  unfold hide_loop, mbind at 1, lift at 1. rewrite Hfn.
  unfold mbind at 1, lift at 1. rewrite Hnames.
  unfold mbind at 1, lift at 1, _chunk, omap. rewrite Hgroups. cbn [bind].
  rewrite (for_each_post_chunk _ _ _ _ _ Hr Hurl Hall).
  rewrite map_map. reflexivity.
Qed.

(** When the transport answers, [hide] and [unhide] issue one request for
    each group of at most fifty fullnames, the submission's own first: the
    groups are [ceil(L / 50)], in order, and concatenate to the list of the
    fullnames, and each request is a POST to the entry [hide], or [unhide],
    with its group joined with commas under the key [id]. *)
Theorem hide_unhide_requests (self : obj) (other_submissions : option (list obj))
    (w : world) (fn url_hide url_unhide : string)
    (names : option (list string)) (config : Config) :
  fullname self = Return fn ->
  other_fullnames fullname other_submissions = Return names ->
  self !! "_reddit" = Some (VReddit config) ->
  API_PATH "hide" = Some url_hide ->
  API_PATH "unhide" = Some url_unhide ->
  answers_all transport ->
  exists groups,
    chunk_contract 50 (all_submissions fn names) groups
    /\ hide API_PATH fullname transport self other_submissions w
       = (Return tt,
          {| requests :=
               requests w
               ++ map (fun g => {| method := "POST"; path := (url_hide, []);
                                   params := [];
                                   data := [("id", VStr (String.concat "," g))] |})
                    groups;
             warnings := warnings w |})
    /\ unhide API_PATH fullname transport self other_submissions w
       = (Return tt,
          {| requests :=
               requests w
               ++ map (fun g => {| method := "POST"; path := (url_unhide, []);
                                   params := [];
                                   data := [("id", VStr (String.concat "," g))] |})
                    groups;
             warnings := warnings w |}).
Proof.
  intros Hfn Hnames Hr Hu1 Hu2 Hall.
  destruct (_chunk_groups_50 fn names) as (groups & Hgroups & Hcontract).
  exists groups. split; [assumption|]. split.
  - exact (hide_loop_requests "hide" url_hide self other_submissions w fn names
             config groups Hfn Hnames Hr Hu1 Hall Hgroups).
  - exact (hide_loop_requests "unhide" url_unhide self other_submissions w fn names
             config groups Hfn Hnames Hr Hu2 Hall Hgroups).
Qed.

(** [hide] and [unhide], each [hide_loop] of its entry of [API_PATH], stop
    at the first error of the transport: the error is raised and no further
    group is sent. *)
Theorem hide_stops_at_error (endpoint : string) (self : obj)
    (other_submissions : option (list obj)) (w : world) (fn url : string)
    (names : option (list string)) (config : Config)
    (group : list string) (groups : list (list string)) (e : exn) :
  fullname self = Return fn ->
  other_fullnames fullname other_submissions = Return names ->
  self !! "_reddit" = Some (VReddit config) ->
  API_PATH endpoint = Some url ->
  _chunk_groups 50 fn names = Return (group :: groups) ->
  transport (requests w) (post_request url [] [("id", VStr (py_join "," group))])
  = Raise e ->
  hide_loop API_PATH fullname transport endpoint self other_submissions w
  = (Raise e, sent (post_request url [] [("id", VStr (py_join "," group))]) w).
Proof.
  intros Hfn Hnames Hr Hurl Hgroups He.
  unfold hide_loop, mbind at 1, lift at 1. rewrite Hfn.
  unfold mbind at 1, lift at 1. rewrite Hnames.
  unfold mbind at 1, lift at 1, _chunk, omap. rewrite Hgroups.
  cbn [bind map for_each]. unfold mbind at 1, post_chunk, mbind, lift.
  rewrite (post_target_Reddit _ _ _ _ Hr Hurl). cbn [fst snd].
  rewrite Reddit_call_Reddit, He. reflexivity.
Qed.

End ActionFacts.

(** The steady transport answers every request. *)
Lemma steady_transport_answers_all : answers_all steady_transport.
Proof. intros history r. exists example_response. reflexivity. Qed.

Lemma post_fullname_result_witness :
  lock actions_API_PATH kind_prefixed_fullname (failing_transport Conflict)
    example_submission empty_world
  = (Raise Conflict,
     sent {| method := "POST"; path := ("api/lock/", []); params := [];
             data := [("id", VStr "t3_2gmzqe")] |} empty_world)
  /\ approve actions_API_PATH kind_prefixed_fullname steady_transport
       example_submission empty_world
     = (Return tt,
        sent {| method := "POST"; path := ("api/approve/", []); params := [];
                data := [("id", VStr "t3_2gmzqe")] |} empty_world).
Proof.
  split.
  - refine (post_fullname_result actions_API_PATH kind_prefixed_fullname
              (failing_transport Conflict) "lock"
              (lock actions_API_PATH kind_prefixed_fullname
                 (failing_transport Conflict))
              example_submission empty_world
              "t3_2gmzqe" "api/lock/" example_config _ eq_refl eq_refl eq_refl).
    do 2 right. left.
  - refine (post_fullname_result actions_API_PATH kind_prefixed_fullname
              steady_transport "approve"
              (approve actions_API_PATH kind_prefixed_fullname steady_transport)
              example_submission empty_world
              "t3_2gmzqe" "api/approve/" example_config _ eq_refl eq_refl eq_refl).
    left.
Defined.

Lemma sticky_one_request_witness :
  requests (snd (sticky actions_API_PATH kind_prefixed_fullname
                   (failing_transport Conflict) example_submission false true
                   empty_world))
  = requests empty_world
    ++ [sticky_request "api/set_subreddit_sticky/" "t3_2gmzqe" false true].
Proof.
  exact (proj1 (sticky_one_request actions_API_PATH kind_prefixed_fullname
                  (failing_transport Conflict) example_submission false true
                  empty_world "t3_2gmzqe" "api/set_subreddit_sticky/"
                  example_config eq_refl eq_refl eq_refl)).
Defined.

Lemma send_removal_message_None_or_true_witness :
  fst (send_removal_message actions_API_PATH kind_prefixed_fullname
         (constant_transport (JList [])) (SubmissionModeration example_submission)
         "removed" "ignored" "public" empty_world)
  = Return VNone
  /\ fst (send_removal_message actions_API_PATH kind_prefixed_fullname
            steady_transport (SubmissionModeration example_submission)
            "removed" "ignored" "public" empty_world)
     = Return (VJson example_response).
Proof.
  split.
  - exact (proj1 (send_removal_message_None_or_true actions_API_PATH
                    kind_prefixed_fullname (constant_transport (JList []))
                    (SubmissionModeration example_submission)
                    "removal_link_message" "removed" "ignored" "public"
                    empty_world "t3_2gmzqe"
                    "api/v1/modactions/removal_link_message" example_config
                    (JList []) eq_refl eq_refl eq_refl eq_refl eq_refl)
             eq_refl).
  - exact (proj2 (send_removal_message_None_or_true actions_API_PATH
                    kind_prefixed_fullname steady_transport
                    (SubmissionModeration example_submission)
                    "removal_link_message" "removed" "ignored" "public"
                    empty_world "t3_2gmzqe"
                    "api/v1/modactions/removal_link_message" example_config
                    example_response eq_refl eq_refl eq_refl eq_refl eq_refl)
             eq_refl).
Defined.

Lemma remove_requests_witness :
  remove actions_API_PATH kind_prefixed_fullname steady_transport
    example_submission "" false None empty_world
  = (Return tt,
     {| requests :=
          requests empty_world
          ++ [{| method := "POST"; path := ("api/remove/", []); params := [];
                 data := [("id", VStr "t3_2gmzqe"); ("spam", VBool false)] |}];
        warnings := warnings empty_world |})
  /\ remove actions_API_PATH kind_prefixed_fullname steady_transport
       example_submission "spam" true None empty_world
     = (Return tt,
        {| requests :=
             requests empty_world
             ++ [{| method := "POST"; path := ("api/remove/", []); params := [];
                    data := [("id", VStr "t3_2gmzqe"); ("spam", VBool true)] |};
                 {| method := "POST";
                    path := ("api/v1/modactions/removal_reasons", []);
                    params := [];
                    data := [("json",
                              VJson (JDict [("item_ids", JList [JStr "t3_2gmzqe"]);
                                            ("mod_note", JStr "spam");
                                            ("reason_id", JNull)]))] |}];
           warnings := warnings empty_world |}).
Proof.
  split.
  - exact (remove_requests actions_API_PATH kind_prefixed_fullname
             steady_transport example_submission "" false None empty_world
             "t3_2gmzqe" "api/remove/" "api/v1/modactions/removal_reasons"
             example_config eq_refl eq_refl eq_refl eq_refl
             steady_transport_answers_all).
  - exact (remove_requests actions_API_PATH kind_prefixed_fullname
             steady_transport example_submission "spam" true None empty_world
             "t3_2gmzqe" "api/remove/" "api/v1/modactions/removal_reasons"
             example_config eq_refl eq_refl eq_refl eq_refl
             steady_transport_answers_all).
Defined.

Lemma distinguish_result_witness :
  distinguish ascii_alnum url_path_segments actions_API_PATH kind_prefixed_fullname
    steady_transport example_submission "yes" true empty_world
  = (Return (example_fetched example_submission),
     sent {| method := "POST"; path := ("api/distinguish/", []); params := [];
             data := [("how", VStr "yes"); ("id", VStr "t3_2gmzqe")] |}
       (sent example_fetch_request empty_world))
  /\ undistinguish ascii_alnum url_path_segments actions_API_PATH kind_prefixed_fullname
       steady_transport example_submission empty_world
     = (Return (example_fetched example_submission),
        sent {| method := "POST"; path := ("api/distinguish/", []); params := [];
                data := [("how", VStr "no"); ("id", VStr "t3_2gmzqe")] |}
          (sent example_fetch_request empty_world)).
Proof.
  assert (Hr : example_fetched example_submission !! "_reddit"
               = Some (VReddit example_config)) by (vm_compute; reflexivity).
  assert (Hroot : example_fetched example_submission !! "is_root" = None)
    by (vm_compute; reflexivity).
  pose proof (distinguish_result ascii_alnum url_path_segments actions_API_PATH
                kind_prefixed_fullname steady_transport example_submission
                (example_fetched example_submission) "yes" true empty_world _
                "t3_2gmzqe" "api/distinguish/" example_config eq_refl
                (example_fetch_result _ (or_introl eq_refl)) Hr eq_refl)
    as [Hd Hu].
  rewrite Hroot in Hd. split; [exact Hd | exact Hu].
Defined.

Lemma choices_on_fetched_witness :
  snd (choices ascii_alnum url_path_segments actions_API_PATH kind_prefixed_fullname
         (constant_transport (JDict [("choices", JList [JStr "a"])]))
         (example_fetched example_submission) empty_world)
  = sent {| method := "POST";
            path := ("r/{subreddit}/api/flairselector/",
                     [("subreddit", VSubreddit example_reddit
                                      (VJson (JStr "redditdev")))]);
            params := []; data := [("link", VStr "t3_2gmzqe")] |} empty_world
  /\ fst (choices ascii_alnum url_path_segments actions_API_PATH
            kind_prefixed_fullname
            (constant_transport (JDict [("choices", JList [JStr "a"])]))
            (example_fetched example_submission) empty_world)
     = Return (example_fetched example_submission, JList [JStr "a"]).
Proof.
  assert (H1 : example_fetched example_submission !! "_fetched"
               = Some (VBool true)) by (vm_compute; reflexivity).
  assert (H2 : example_fetched example_submission !! "subreddit"
               = Some (VSubreddit example_reddit (VJson (JStr "redditdev"))))
    by (vm_compute; reflexivity).
  assert (H3 : example_fetched example_submission !! "_reddit"
               = Some (VReddit example_config)) by (vm_compute; reflexivity).
  assert (H4 : kind_prefixed_fullname (example_fetched example_submission)
               = Return "t3_2gmzqe") by (vm_compute; reflexivity).
  pose proof (choices_on_fetched ascii_alnum url_path_segments actions_API_PATH
                kind_prefixed_fullname
                (constant_transport (JDict [("choices", JList [JStr "a"])]))
                (example_fetched example_submission) empty_world (VBool true)
                (VSubreddit example_reddit (VJson (JStr "redditdev")))
                "t3_2gmzqe" "r/{subreddit}/api/flairselector/" example_config
                H1 eq_refl H2 H3 H4 eq_refl) as (Hsnd & Hfst & _).
  split; [exact Hsnd|].
  exact (Hfst [("choices", JList [JStr "a"])] eq_refl).
Defined.

Lemma choices_fetches_first_witness :
  requests (snd (choices ascii_alnum url_path_segments actions_API_PATH
                   kind_prefixed_fullname steady_transport example_submission
                   empty_world))
  = requests (sent example_fetch_request empty_world)
    ++ [{| method := "POST";
           path := ("r/{subreddit}/api/flairselector/",
                    [("subreddit", VSubreddit example_reddit
                                     (VJson (JStr "redditdev")))]);
           params := []; data := [("link", VStr "t3_2gmzqe")] |}].
Proof.
  refine (choices_fetches_first ascii_alnum url_path_segments actions_API_PATH
            kind_prefixed_fullname steady_transport example_submission
            (example_fetched example_submission) empty_world _ (VBool false)
            (VSubreddit example_reddit (VJson (JStr "redditdev"))) "t3_2gmzqe"
            "r/{subreddit}/api/flairselector/" example_config
            _ eq_refl (example_fetch_result _ (or_introl eq_refl)) _ _ _ eq_refl);
    vm_compute; reflexivity.
Defined.

Lemma hide_unhide_requests_witness :
  exists groups,
    chunk_contract 50 (all_submissions "t3_2gmzqe" (Some ["t3_b"])) groups
    /\ hide actions_API_PATH kind_prefixed_fullname steady_transport
         example_submission (Some [new_submission example_reddit "b"]) empty_world
       = (Return tt,
          {| requests :=
               requests empty_world
               ++ map (fun g => {| method := "POST"; path := ("api/hide/", []);
                                   params := [];
                                   data := [("id", VStr (String.concat "," g))] |})
                    groups;
             warnings := warnings empty_world |})
    /\ unhide actions_API_PATH kind_prefixed_fullname steady_transport
         example_submission (Some [new_submission example_reddit "b"]) empty_world
       = (Return tt,
          {| requests :=
               requests empty_world
               ++ map (fun g => {| method := "POST"; path := ("api/unhide/", []);
                                   params := [];
                                   data := [("id", VStr (String.concat "," g))] |})
                    groups;
             warnings := warnings empty_world |}).
Proof.
  refine (hide_unhide_requests actions_API_PATH kind_prefixed_fullname
            steady_transport example_submission
            (Some [new_submission example_reddit "b"]) empty_world "t3_2gmzqe"
            "api/hide/" "api/unhide/" (Some ["t3_b"]) example_config
            eq_refl _ eq_refl eq_refl eq_refl steady_transport_answers_all).
  vm_compute. reflexivity.
Defined.

Lemma _fetch_uses_assigned_sort_witness :
  exists w1,
    __setattr__ example_submission "comment_sort" (VStr "new") empty_world
    = (Return (<["comment_sort" := VStr "new"]> example_submission), w1)
    /\ requests (snd (_fetch ascii_alnum url_path_segments actions_API_PATH steady_transport
                        (<["comment_sort" := VStr "new"]> example_submission) w1))
       = requests w1
         ++ [fetch_request "comments/{id}/" (VStr "2gmzqe") (VInt 2048) (VStr "new")].
Proof.
  exact (_fetch_uses_assigned_sort ascii_alnum url_path_segments actions_API_PATH
           steady_transport example_submission empty_world "comments/{id}/"
           (VStr "2gmzqe") (VInt 2048) (VStr "new") example_config
           eq_refl eq_refl eq_refl eq_refl).
Defined.

Lemma hide_stops_at_error_witness :
  hide actions_API_PATH kind_prefixed_fullname
    (failing_transport (TransportError "Forbidden")) example_submission
    None empty_world
  = (Raise (TransportError "Forbidden"),
     sent (post_request "api/hide/" [] [("id", VStr (py_join "," ["t3_2gmzqe"]))])
       empty_world).
Proof.
  exact (hide_stops_at_error actions_API_PATH kind_prefixed_fullname
           (failing_transport (TransportError "Forbidden")) "hide"
           example_submission None empty_world "t3_2gmzqe" "api/hide/" None
           example_config ["t3_2gmzqe"] [] (TransportError "Forbidden")
           eq_refl eq_refl eq_refl eq_refl eq_refl eq_refl).
Defined.
